(** * beem.memo: the Memo resolver (src/beem/memo.py)

    A shallow embedding of the class [Memo] of [beem/memo.py] and the
    properties of its two methods [encrypt] and [decrypt].

    The module talks to four collaborators that live in other modules:
    the wallet of the Steem instance ([getPrivateKeyForPublicKey]), the key
    constructors [PrivateKey] and [PublicKey] of [beembase.account], the
    codec [encode_memo]/[decode_memo] of [beembase.memo], and Python's
    [random.getrandbits].  They are parameters of the development: every
    call to one of them is written out in the order Python evaluates it and
    is recorded in a trace. *)

From Stdlib Require Import ZArith Lia Ascii String List DecimalString DecimalPos.
From stdpp Require Import base strings gmap.

Local Open Scope Z_scope.
Local Open Scope string_scope.
Local Open Scope list_scope.

(** ** Python values and exceptions *)

(** The values that flow through [memo.py]: [None] and [str]. *)
Inductive PyVal : Type :=
| PNone
| PStr (s : string).

#[global] Instance PyVal_eq_dec : EqDecision PyVal.
Proof. solve_decision. Defined.

(** Python truthiness ([if not x]): [None] and the empty string are falsy. *)
Definition truthy (v : PyVal) : bool :=
  match v with
  | PNone => false
  | PStr EmptyString => false
  | PStr (String _ _) => true
  end.

(** The exception classes that can cross [memo.py].  [KeyNotFound] and
    [MissingKeyError] are the two classes imported from [beem.exceptions];
    [AttributeError] and [KeyError] are raised by the Python runtime;
    [IntegrityError] and [FormatError] are the codec failures; any other
    class is [OtherError]. *)
Inductive exn : Type :=
| KeyNotFound (msg : string)
| MissingKeyError (msg : string)
| AttributeError (msg : string)
| KeyError (key : string)
| IntegrityError (msg : string)
| FormatError (msg : string)
| OtherError (cls msg : string).

#[global] Instance exn_eq_dec : EqDecision exn.
Proof. solve_decision. Defined.

Definition is_KeyNotFound (e : exn) : bool :=
  match e with KeyNotFound _ => true | _ => false end.

Definition is_MissingKeyError (e : exn) : bool :=
  match e with MissingKeyError _ => true | _ => false end.

(** The outcome of a Python call: a value or a raised exception. *)
Inductive Result (A : Type) : Type :=
| Return (a : A)
| Raise (e : exn).

Arguments Return {A} a.
Arguments Raise {A} e.

(** ** Python string formatting used by the two error messages *)

(** [str(n)] for an integer. *)
Definition py_str_int (n : Z) : string :=
  NilZero.string_of_int (Z.to_int n).

Definition hex_digit (n : N) : ascii :=
  ascii_of_N (if (n <? 10)%N then 48 + n else 87 + n)%N.

(** One ASCII character of [repr] of a [str] delimited by [q]: the
    backslash, the delimiter and the control characters are escaped, the
    others stand for themselves. *)
Definition repr_char (q : ascii) (c : ascii) : string :=
  let n := N_of_ascii c in
  if Ascii.eqb c "\"%char then "\\"
  else if Ascii.eqb c q then String "\"%char (String q EmptyString)
  else if (n =? 10)%N then "\n"
  else if (n =? 13)%N then "\r"
  else if (n =? 9)%N then "\t"
  else if ((n <? 32) || (n =? 127))%N
       then String "\"%char (String "x"%char
              (String (hex_digit (n / 16)) (String (hex_digit (n mod 16)) EmptyString)))
  else String c EmptyString.

Fixpoint repr_body (q : ascii) (s : string) : string :=
  match s with
  | EmptyString => EmptyString
  | String c s' => repr_char q c +:+ repr_body q s'
  end.

Definition squote : ascii := ascii_of_N 39.
Definition dquote : ascii := ascii_of_N 34.

Fixpoint has_char (c : ascii) (s : string) : bool :=
  match s with
  | EmptyString => false
  | String d s' => Ascii.eqb c d || has_char c s'
  end.

Fixpoint is_ascii (s : string) : bool :=
  match s with
  | EmptyString => true
  | String c s' => (N_of_ascii c <? 128)%N && is_ascii s'
  end.

(** The strings [repr] only puts between single quotes: printable ASCII
    without single quote and backslash (every base58 key is one). *)
Definition plain_char (c : ascii) : bool :=
  let n := N_of_ascii c in
  (32 <=? n)%N && (n <? 127)%N && negb (n =? 39)%N && negb (n =? 92)%N.

Fixpoint plain (s : string) : bool :=
  match s with
  | EmptyString => true
  | String c s' => plain_char c && plain s'
  end.

(** Python's [repr] of a [str] that holds characters beyond ASCII.  Which
    of them it escapes is decided by the interpreter's table of printable
    characters, so this part of [repr] is taken as it is given. *)
Class PyRuntime : Type := {
  repr_beyond_ascii : string → string
}.

(** [repr(s)].  For an ASCII string: single quotes, unless [s] holds a
    single quote and no double quote. *)
Definition py_repr_str `{PyRuntime} (s : string) : string :=
  if is_ascii s then
    let q := if has_char squote s && negb (has_char dquote s)
             then dquote else squote in
    String q (repr_body q s) +:+ String q EmptyString
  else repr_beyond_ascii s.

Definition py_repr `{PyRuntime} (v : PyVal) : string :=
  match v with
  | PNone => "None"
  | PStr s => py_repr_str s
  end.

(** ["Non of ...!" "Need any of {}".format([to, from])]: the two adjacent
    literals are one string, and a list is formatted by the [repr] of its
    items. *)
Definition need_any_of `{PyRuntime} (to_ from_ : PyVal) : string :=
  "Non of the required memo keys are installed!Need any of ["
    +:+ py_repr to_ +:+ ", " +:+ py_repr from_ +:+ "]".

(** ["Memo key for %s missing!" % name] *)
Definition memo_key_missing (name : string) : string :=
  "Memo key for " +:+ name +:+ " missing!".

Definition no_attribute (attr : string) : string :=
  "'Memo' object has no attribute '" +:+ attr +:+ "'".

(** ** The collaborators *)

(** [beembase.account] and [beembase.memo]: key objects, their constructors
    (which reject malformed input by raising) and the shared-secret codec.
    [PublicKey pk prefix] is [PublicKey(pk, prefix=prefix)].  The four
    operations are taken as functions of their arguments: what a
    constructor does on an argument for which [beembase] draws a key of its
    own ([PrivateKey(None)]) is one fixed outcome here, so nothing below
    speaks of two runs of such a call differing. *)
Class Beembase : Type := {
  priv : Type;
  pub : Type;
  PrivateKey : PyVal -> Result priv;
  PublicKey : PyVal -> string -> Result pub;
  encode_memo : priv -> pub -> PyVal -> PyVal -> Result PyVal;
  decode_memo : priv -> pub -> PyVal -> PyVal -> Result PyVal
}.

(** [steem.wallet]: the key store, seen through its one query. *)
Record Wallet : Type := {
  getPrivateKeyForPublicKey : PyVal -> Result PyVal
}.

(** The Steem instance: the fields [memo.py] reads. *)
Record Steem : Type := {
  wallet : Wallet;
  prefix : string
}.

(** [beem.account.Account]: a loaded account.  [memo.py] subscripts it at
    ["name"] and ["memo_key"] only, and a loaded account has both. *)
Record Account : Type := {
  name : string;
  memo_key : string
}.

(** [beem.account.Account(...)] and [shared_steem_instance()], as
    [Memo.__init__] calls them.  [shared_steem_instance] stands for the
    instance that call returns; a failure of the call itself is not
    modelled, and what is proved of [__init__] without a Steem instance
    given is proved of the runs in which the call returned. *)
Class BeemInstance : Type := {
  Account_new : PyVal -> Steem -> Result Account;
  shared_steem_instance : Steem
}.

#[global] Instance Result_ret : MRet Result := @Return.
#[global] Instance Result_bind : MBind Result :=
  fun A B k r => match r with Return a => k a | Raise e => Raise e end.

(** ** The Memo object and the world it runs in *)

(** The attributes of a [Memo] object.  [from_account] and [to_account]
    are [None] here when the attribute was never assigned. *)
Record Memo : Type := {
  steem : Steem;
  from_account : option Account;
  to_account : option Account
}.

(** [Memo.__init__] (memo.py, lines 142-154).  An attribute is assigned
    only under its [if]; [steem_instance or shared_steem_instance()] takes
    the shared instance when none is given. *)
Definition Memo_init `{BeemInstance}
    (from_account_arg to_account_arg : PyVal) (steem_instance : option Steem)
    : Result Memo :=
  let s := default shared_steem_instance steem_instance in
  to_ ← (if truthy to_account_arg
         then a ← Account_new to_account_arg s; Return (Some a)
         else Return None);
  from_ ← (if truthy from_account_arg
           then a ← Account_new from_account_arg s; Return (Some a)
           else Return None);
  Return {| steem := s; from_account := from_; to_account := to_ |}.

(** A memo envelope is a Python [dict] with string keys. *)
Abbreviation Envelope := (gmap string PyVal).

Section Resolver.
Context `{BB : Beembase} `{PY : PyRuntime}.

(** The calls that leave [memo.py], in the order they are made. *)
Inductive Event : Type :=
| EvGetRandBits (k : Z)
| EvLookup (pubkey : PyVal)
| EvPrivateKey (wif : PyVal)
| EvPublicKey (pk : PyVal) (pfx : string)
| EvEncode (sk : priv) (pk : pub) (nonce memo : PyVal)
| EvDecode (sk : priv) (pk : pub) (nonce message : PyVal).

Definition is_lookup (ev : Event) : bool :=
  match ev with EvLookup _ => true | _ => false end.

Definition is_codec_call (ev : Event) : bool :=
  match ev with
  | EvPrivateKey _ | EvPublicKey _ _ | EvEncode _ _ _ _ | EvDecode _ _ _ _ => true
  | _ => false
  end.

Definition is_rng_draw (ev : Event) : bool :=
  match ev with EvGetRandBits _ => true | _ => false end.

(** The keys the wallet was asked for, in order. *)
Fixpoint lookups (evs : list Event) : list PyVal :=
  match evs with
  | [] => []
  | EvLookup k :: evs' => k :: lookups evs'
  | _ :: evs' => lookups evs'
  end.

(** The state a call can touch: the Memo object itself, the generator
    behind the module [random] (the raw words it will produce and how many
    were drawn), and the trace of calls made so far. *)
Record World : Type := {
  self : Memo;
  rng_raw : nat -> Z;
  rng_pos : nat;
  trace : list Event
}.

(** ** A state and exception monad for method bodies *)

Definition M (A : Type) : Type := World -> Result A * World.

Definition ret {A} (a : A) : M A := fun w => (Return a, w).

Definition raise {A} (e : exn) : M A := fun w => (Raise e, w).

Definition bind {A B} (m : M A) (k : A -> M B) : M B :=
  fun w =>
    match m w with
    | (Return a, w') => k a w'
    | (Raise e, w') => (Raise e, w')
    end.

#[global] Instance M_ret : MRet M := @ret.
#[global] Instance M_bind : MBind M := fun A B k m => bind m k.

(** [try: body except KeyNotFound: handler].  What [body] did before
    it raised stays done. *)
Definition try_except_KeyNotFound {A} (body handler : M A) : M A :=
  fun w =>
    match body w with
    | (Raise (KeyNotFound _), w') => handler w'
    | r => r
    end.

(** The world after the calls [evs] were recorded. *)
Definition log (w : World) (evs : list Event) : World :=
  {| self := self w; rng_raw := rng_raw w; rng_pos := rng_pos w;
     trace := trace w ++ evs |}.

Definition emit (ev : Event) : M unit :=
  fun w => (Return tt, log w [ev]).

(** A call to a collaborator: recorded, then its outcome. *)
Definition call {A} (ev : Event) (r : Result A) : M A :=
  emit ev;; (fun w => (r, w)).

(** [random.getrandbits(k)]: the next raw word of the generator, cut to
    its [k] low bits. *)
Definition getrandbits (k : Z) : M Z :=
  fun w => (Return (Z.land (rng_raw w (rng_pos w)) (Z.ones k)),
            {| self := self w; rng_raw := rng_raw w; rng_pos := S (rng_pos w);
               trace := trace w ++ [EvGetRandBits k] |}).

(** [self.steem], [self.from_account], [self.to_account]. *)
Definition self_steem : M Steem := fun w => (Return (steem (self w)), w).

Definition self_from_account : M Account :=
  fun w => match from_account (self w) with
           | Some a => (Return a, w)
           | None => (Raise (AttributeError (no_attribute "from_account")), w)
           end.

Definition self_to_account : M Account :=
  fun w => match to_account (self w) with
           | Some a => (Return a, w)
           | None => (Raise (AttributeError (no_attribute "to_account")), w)
           end.

(** [self.steem.wallet.getPrivateKeyForPublicKey(k)] *)
Definition wallet_lookup (k : PyVal) : M PyVal :=
  s ← self_steem;
  call (EvLookup k) (getPrivateKeyForPublicKey (wallet s) k).

(** [memo[key]] and [memo.get(key)] on a dict. *)
Definition getitem (memo : Envelope) (key : string) : M PyVal :=
  match memo !! key with
  | Some v => ret v
  | None => raise (KeyError key)
  end.

Definition dict_get (memo : Envelope) (key : string) : PyVal :=
  default PNone (memo !! key).

(** ** Memo.encrypt (memo.py, lines 162-194) *)

Definition encrypt (memo : PyVal) : M (option Envelope) :=
  if negb (truthy memo) then ret None
  else
    n ← getrandbits 64;
    let nonce := PStr (py_str_int n) in
    from_ ← self_from_account;
    memo_wif ← wallet_lookup (PStr (memo_key from_));
    if negb (truthy memo_wif)
    then from_' ← self_from_account;
         raise (MissingKeyError (memo_key_missing (name from_')))
    else
      sk ← call (EvPrivateKey memo_wif) (PrivateKey memo_wif);
      to_ ← self_to_account;
      s ← self_steem;
      pk ← call (EvPublicKey (PStr (memo_key to_)) (prefix s))
                (PublicKey (PStr (memo_key to_)) (prefix s));
      enc ← call (EvEncode sk pk nonce memo) (encode_memo sk pk nonce memo);
      from_' ← self_from_account;
      to_' ← self_to_account;
      ret (Some (<["message" := enc]>
                 (<["nonce" := nonce]>
                  (<["from" := PStr (memo_key from_')]>
                   (<["to" := PStr (memo_key to_')]> ∅))))).

(** ** Memo.decrypt (memo.py, lines 196-231) *)

(** The [try]/[except] ladder: the WIF found and the counterparty key. *)
Definition resolve_role (memo : Envelope) : M (PyVal * PyVal) :=
  try_except_KeyNotFound
    (to_ ← getitem memo "to";
     memo_wif ← wallet_lookup to_;
     pubkey ← getitem memo "from";
     ret (memo_wif, pubkey))
    (try_except_KeyNotFound
       (from_ ← getitem memo "from";
        memo_wif ← wallet_lookup from_;
        pubkey ← getitem memo "to";
        ret (memo_wif, pubkey))
       (to_ ← getitem memo "to";
        from_ ← getitem memo "from";
        raise (MissingKeyError (need_any_of to_ from_)))).

(** The final [return BtsMemo.decode_memo(...)]. *)
Definition decode_with (memo : Envelope) (memo_wif pubkey : PyVal) : M PyVal :=
  sk ← call (EvPrivateKey memo_wif) (PrivateKey memo_wif);
  s ← self_steem;
  pk ← call (EvPublicKey pubkey (prefix s)) (PublicKey pubkey (prefix s));
  let nonce := dict_get memo "nonce" in
  let message := dict_get memo "message" in
  call (EvDecode sk pk nonce message) (decode_memo sk pk nonce message).

Definition decrypt (memo : option Envelope) : M PyVal :=
  match memo with
  | None => ret PNone
  | Some m =>
      if decide (m = ∅) then ret PNone
      else
        '(memo_wif, pubkey) ← resolve_role m;
        decode_with m memo_wif pubkey
  end.

(** ** Vocabulary for the statements *)

(** The answer of the wallet that the Memo object of [w] queries. *)
Definition wallet_query (w : World) (k : PyVal) : Result PyVal :=
  getPrivateKeyForPublicKey (wallet (steem (self w))) k.

(** The value [random.getrandbits(64)] yields in world [w], and the world
    it leaves. *)
Definition draw64 (w : World) : Z := Z.land (rng_raw w (rng_pos w)) (Z.ones 64).

Definition drawn (w : World) : World :=
  {| self := self w; rng_raw := rng_raw w; rng_pos := S (rng_pos w);
     trace := trace w ++ [EvGetRandBits 64] |}.

(** The calls recorded between world [w] and a later world [w']. *)
Definition calls_since (w w' : World) : list Event :=
  drop (length (trace w)) (trace w').

(** [MissingKeyError] is an exception of [beem]: the wallet query and the
    [beembase] functions are not expected to raise it themselves. *)
Definition wallet_never_raises_MissingKeyError (wl : Wallet) : Prop :=
  ∀ k e, getPrivateKeyForPublicKey wl k = Raise e → is_MissingKeyError e = false.

Definition beembase_never_raises_MissingKeyError : Prop :=
  (∀ v e, PrivateKey v = Raise e → is_MissingKeyError e = false) ∧
  (∀ v p e, PublicKey v p = Raise e → is_MissingKeyError e = false) ∧
  (∀ sk pk n c e, decode_memo sk pk n c = Raise e → is_MissingKeyError e = false).

(** The key store's contract for one key: the query returns, or it fails
    with [KeyNotFound]. *)
Definition lookup_returns_or_KeyNotFound (wl : Wallet) (k : PyVal) : Prop :=
  ∀ e, getPrivateKeyForPublicKey wl k = Raise e → is_KeyNotFound e = true.

(** A computation that changes the world by recording calls, all of them
    of kind [P], and in no other way. *)
Definition only_logs {A} (P : Event → bool) (m : M A) : Prop :=
  ∀ w, ∃ evs, snd (m w) = log w evs ∧ forallb P evs = true.

(** Key-store queries and calls into [beembase]: the calls without effect
    on anything [memo.py] can see. *)
Definition is_query (ev : Event) : bool := is_lookup ev || is_codec_call ev.

(** Key pairs, for the round trip.  [pubkey_of sk] is the public key of
    the private key [sk]; [key] is a valid serialisation of it under the
    prefix [pfx] when [PublicKey] reads it back. *)
Definition key_pair (pubkey_of : priv → pub) (pfx : string)
    (sk : priv) (key : string) : Prop :=
  PublicKey (PStr key) pfx = Return (pubkey_of sk).

(** The wallet holds the private key [sk] under the public key [key]. *)
Definition holds_key (wl : Wallet) (key : string) (sk : priv) : Prop :=
  ∃ wif, getPrivateKeyForPublicKey wl (PStr key) = Return wif ∧
         PrivateKey wif = Return sk.

(** The codec's round trip: what one party encodes for another, either of
    the two decodes with its own private key and the other's public key. *)
Definition codec_round_trip (pubkey_of : priv → pub) : Prop :=
  ∀ sk_s sk_r nonce plain c,
    encode_memo sk_s (pubkey_of sk_r) nonce plain = Return c →
    decode_memo sk_r (pubkey_of sk_s) nonce c = Return plain ∧
    decode_memo sk_s (pubkey_of sk_r) nonce c = Return plain.

End Resolver.

(** ** Memo.unlock_wallet (memo.py, lines 156-160) *)

(** [wallet.unlock] of [beem.wallet], with its positional and keyword
    arguments: what the call does to the wallet, and whether it returns or
    raises. *)
Class WalletLib : Type := {
  Wallet_unlock : list PyVal → gmap string PyVal → Wallet → Result unit * Wallet
}.

Section Unlock.
Context `{BB : Beembase} `{WL : WalletLib}.

(** The Memo object once the wallet of its Steem instance has become [wl]. *)
Definition with_wallet (m : Memo) (wl : Wallet) : Memo :=
  {| steem := {| wallet := wl; prefix := prefix (steem m) |};
     from_account := from_account m;
     to_account := to_account m |}.

(** [self.steem.wallet.unlock] on the arguments as given, then
    [return self]. *)
Definition unlock_wallet (args : list PyVal) (kwargs : gmap string PyVal) : M Memo :=
  fun w =>
    let (r, wl) := Wallet_unlock args kwargs (wallet (steem (self w))) in
    let w' := {| self := with_wallet (self w) wl; rng_raw := rng_raw w;
                 rng_pos := rng_pos w; trace := trace w |} in
    match r with
    | Return _ => (Return (self w'), w')
    | Raise e => (Raise e, w')
    end.

End Unlock.

(** ** Vocabulary for what a method body depends on and never does *)

Section Dependence.
Context `{BB : Beembase}.

(** Two worlds whose Memo objects hold the same Steem instance, and two
    worlds that hold the same Memo object. *)
Definition same_steem (w1 w2 : World) : Prop := steem (self w1) = steem (self w2).

Definition same_self (w1 w2 : World) : Prop := self w1 = self w2.

(** A computation that, from worlds related by [R], gives the same outcome
    and records the same calls, and does nothing else. *)
Definition respects (R : World → World → Prop) {A} (m : M A) : Prop :=
  ∀ w1 w2, R w1 w2 →
    ∃ evs, fst (m w1) = fst (m w2) ∧
           snd (m w1) = log w1 evs ∧ snd (m w2) = log w2 evs.

(** A computation that never ends with a [KeyNotFound]. *)
Definition never_KeyNotFound {A} (m : M A) : Prop :=
  ∀ w e, fst (m w) = Raise e → is_KeyNotFound e = false.

Definition beembase_never_raises_KeyNotFound : Prop :=
  (∀ v e, PrivateKey v = Raise e → is_KeyNotFound e = false) ∧
  (∀ v p e, PublicKey v p = Raise e → is_KeyNotFound e = false) ∧
  (∀ sk pk n c e, decode_memo sk pk n c = Raise e → is_KeyNotFound e = false).

Definition encode_never_raises_MissingKeyError : Prop :=
  ∀ sk pk n c e, encode_memo sk pk n c = Raise e → is_MissingKeyError e = false.

(** The keys [decrypt] may ask the wallet for, in order: [memo["to"]], then
    [memo["from"]]. *)
Definition keys_asked (memo : Envelope) : list PyVal :=
  match memo !! "to", memo !! "from" with
  | Some t, Some f => [t; f]
  | Some t, None => [t]
  | None, _ => []
  end.

End Dependence.

(** ** A concrete scenario

    A small instance of the collaborators, used to run the methods on
    concrete inputs: private keys are integers, the public key of [sk] is
    [5 * sk], the shared secret of [sk] and [pk] is [sk * pk], and a
    ciphertext is the plaintext behind a header made of the shared secret
    and the nonce, which the decoder checks. *)
Module Scenario.

Fixpoint strip_prefix (p s : string) : option string :=
  match p, s with
  | EmptyString, _ => Some s
  | String a p', String b s' => if Ascii.eqb a b then strip_prefix p' s' else None
  | String _ _, EmptyString => None
  end.

Definition parse_key (tag : string) (v : PyVal) : Result Z :=
  match v with
  | PStr s =>
      match strip_prefix tag s with
      | Some digits =>
          match NilZero.uint_of_string digits with
          | Some u => Return (Z.of_N (N.of_uint u))
          | None => Raise (FormatError "malformed key")
          end
      | None => Raise (FormatError "wrong prefix")
      end
  | PNone => Raise (FormatError "key expected")
  end.

Definition pubkey_of (sk : Z) : Z := 5 * sk.

Definition header (sk pk : Z) (nonce : string) : string :=
  py_str_int (sk * pk) +:+ ":" +:+ nonce +:+ ":".

Definition toy_encode (sk pk : Z) (nonce memo : PyVal) : Result PyVal :=
  match nonce, memo with
  | PStr n, PStr m => Return (PStr (header sk pk n +:+ m))
  | _, _ => Raise (OtherError "TypeError" "str expected")
  end.

Definition toy_decode (sk pk : Z) (nonce message : PyVal) : Result PyVal :=
  match nonce, message with
  | PStr n, PStr c =>
      match strip_prefix (header sk pk n) c with
      | Some m => Return (PStr m)
      | None => Raise (IntegrityError "checksum verification failure")
      end
  | _, _ => Raise (FormatError "nonce and message expected")
  end.

(** An interpreter for which every character beyond ASCII is printable. *)
#[local] Instance python : PyRuntime := {|
  repr_beyond_ascii := fun s => String squote s +:+ String squote EmptyString
|}.

#[local] Instance toy : Beembase := {|
  priv := Z;
  pub := Z;
  PrivateKey := parse_key "5J";
  PublicKey := fun pk pfx => parse_key pfx pk;
  encode_memo := toy_encode;
  decode_memo := toy_decode
|}.

(** A wallet over a table of keys that signals a miss by [KeyNotFound]. *)
Definition wallet_of (keys : gmap string string) : Wallet :=
  {| getPrivateKeyForPublicKey := fun k =>
       match k with
       | PStr s =>
           match keys !! s with
           | Some wif => Return (PStr wif)
           | None => Raise (KeyNotFound ("No private key for " +:+ s +:+ " found"))
           end
       | PNone => Raise (KeyNotFound "No private key for None found")
       end |}.

(** A wallet over a table of keys that answers a miss with [None]. *)
Definition storage_of (keys : gmap string string) : Wallet :=
  {| getPrivateKeyForPublicKey := fun k =>
       match k with
       | PStr s => Return (from_option PStr PNone (keys !! s))
       | PNone => Return PNone
       end |}.

(** A wallet that is locked. *)
Definition locked_wallet : Wallet :=
  {| getPrivateKeyForPublicKey := fun _ => Raise (OtherError "WalletLocked" "") |}.

Definition alice : Account := {| name := "steemeu"; memo_key := "STM55" |}.
Definition bob : Account := {| name := "wallet.xeroc"; memo_key := "STM115" |}.

Definition alice_keys : gmap string string := {[ "STM55" := "5J11" ]}.
Definition bob_keys : gmap string string := {[ "STM115" := "5J23" ]}.

Definition steem_with (wl : Wallet) : Steem := {| wallet := wl; prefix := "STM" |}.

Definition memo_obj (wl : Wallet) (from_ to_ : option Account) : Memo :=
  {| steem := steem_with wl; from_account := from_; to_account := to_ |}.

(** A fresh world around a Memo object; the generator yields, forever, a
    word whose 64 low bits are the nonce of the class docstring. *)
Definition world_of (m : Memo) : World :=
  {| self := m; rng_raw := fun _ => 2 ^ 64 + 17329630356955254641;
     rng_pos := 0; trace := [] |}.

(** The account directory behind [Account(...)]. *)
#[local] Instance chain : BeemInstance := {|
  Account_new := fun who _ =>
    match who with
    | PStr "steemeu" => Return alice
    | PStr "wallet.xeroc" => Return bob
    | _ => Raise (OtherError "AccountDoesNotExistsException" "")
    end;
  shared_steem_instance := steem_with locked_wallet
|}.

Definition foobar_envelope : Envelope :=
  <["message" := PStr "1265:17329630356955254641:foobar"]>
    (<["nonce" := PStr "17329630356955254641"]>
      (<["from" := PStr "STM55"]> (<["to" := PStr "STM115"]> ∅))).

(** Alice's Memo object for a transfer to Bob, her wallet unlocked. *)
Definition sender_world : World :=
  world_of (memo_obj (wallet_of alice_keys) (Some alice) (Some bob)).

(** The same Memo object over a wallet that holds Bob's key only. *)
Definition keyless_sender_world : World :=
  world_of (memo_obj (wallet_of bob_keys) (Some alice) (Some bob)).

(** A Memo object built as [Memo()] to read memos, over a table of keys. *)
Definition reader_world (keys : gmap string string) : World :=
  world_of (memo_obj (wallet_of keys) None None).

Definition both_keys : gmap string string :=
  <["STM55" := "5J11"]> bob_keys.

(** The envelope with its ciphertext altered. *)
Definition tampered_envelope : Envelope :=
  <["message" := PStr "1266:17329630356955254641:foobar"]> foobar_envelope.

(** Envelopes that lack a field. *)
Definition envelope_without_to : Envelope := delete "to" foobar_envelope.
Definition envelope_without_from : Envelope := delete "from" foobar_envelope.
Definition envelope_without_nonce : Envelope := delete "nonce" foobar_envelope.

(** The envelope as a transfer may carry it, with a key [decrypt] has no
    use for. *)
Definition annotated_envelope : Envelope :=
  <["memo_type" := PStr "encrypted"]> foobar_envelope.

(** A table whose entry for Alice's key is no WIF. *)
Definition garbled_keys : gmap string string := {[ "STM55" := "oops" ]}.

(** Alice's Memo object with no receiver, over such a table. *)
Definition garbled_sender_world : World :=
  world_of (memo_obj (wallet_of garbled_keys) (Some alice) None).

(** Alice's Memo object over a wallet that answers a miss with [None]. *)
Definition storage_sender_world : World :=
  world_of (memo_obj (storage_of bob_keys) (Some alice) (Some bob)).

(** A reader over a locked wallet, and one over a wallet that answers a
    miss with [None] and holds Alice's key only. *)
Definition locked_reader_world : World :=
  world_of (memo_obj locked_wallet None None).

Definition storage_reader_world : World :=
  world_of (memo_obj (storage_of alice_keys) None None).

(** A wallet library whose wallets open, with both keys, on the password
    "secret" and refuse any other. *)
#[local] Instance keyring : WalletLib := {|
  Wallet_unlock := fun args _ wl =>
    match args with
    | [PStr "secret"] => (Return tt, wallet_of both_keys)
    | _ => (Raise (OtherError "WrongMasterPasswordException" EmptyString), wl)
    end
|}.

End Scenario.

(** * Properties *)

Section ResolverFacts.
Context `{BB : Beembase} `{PY : PyRuntime} `{BI : BeemInstance}.

Implicit Types (w : World) (memo : PyVal) (env : Envelope).

Lemma log_nil w : log w [] = w.
Proof. destruct w; unfold log; simpl. by rewrite app_nil_r. Qed.

Lemma log_log w evs evs' : log (log w evs) evs' = log w (evs ++ evs').
Proof. unfold log; simpl. by rewrite app_assoc. Qed.

(** Symbolic execution of a method body: unfold the monad, the attribute
    reads and the record projections, and reduce what is decided. *)
Ltac run_m :=
  repeat progress
    (cbv beta iota zeta delta
       [mbind mret M_bind M_ret bind ret raise call emit wallet_lookup
        self_steem self_from_account self_to_account getitem dict_get
        try_except_KeyNotFound getrandbits log drawn draw64 wallet_query
        encrypt decrypt resolve_role decode_with negb] in *;
     cbn [self rng_raw rng_pos trace steem from_account to_account fst snd] in *).

(** ** Running [encrypt] on a non-empty plaintext, step by step *)

Lemma encrypt_success_inv w memo env w' :
  encrypt memo w = (Return (Some env), w') →
  ∃ A B wif sk pk enc,
    truthy memo = true ∧
    from_account (self w) = Some A ∧
    to_account (self w) = Some B ∧
    wallet_query w (PStr (memo_key A)) = Return wif ∧
    truthy wif = true ∧
    PrivateKey wif = Return sk ∧
    PublicKey (PStr (memo_key B)) (prefix (steem (self w))) = Return pk ∧
    encode_memo sk pk (PStr (py_str_int (draw64 w))) memo = Return enc ∧
    env = <["message" := enc]>
            (<["nonce" := PStr (py_str_int (draw64 w))]>
              (<["from" := PStr (memo_key A)]>
                (<["to" := PStr (memo_key B)]> ∅))) ∧
    w' = log (drawn w)
           [EvLookup (PStr (memo_key A)); EvPrivateKey wif;
            EvPublicKey (PStr (memo_key B)) (prefix (steem (self w)));
            EvEncode sk pk (PStr (py_str_int (draw64 w))) memo].
Proof.
  destruct w as [[st fa ta] raw pos tr]. intros Henc. run_m.
  destruct (truthy memo) eqn:Hmemo; run_m; [|by inversion Henc].
  destruct fa as [A|]; run_m; [|by inversion Henc].
  destruct (getPrivateKeyForPublicKey _ (PStr (memo_key A))) as [wif|e] eqn:Hw;
    run_m; [|by inversion Henc].
  destruct (truthy wif) eqn:Hwif; run_m; [|by inversion Henc].
  destruct (PrivateKey wif) as [sk|e] eqn:Hsk; run_m; [|by inversion Henc].
  destruct ta as [B|]; run_m; [|by inversion Henc].
  destruct (PublicKey _ _) as [pk|e] eqn:Hpk; run_m; [|by inversion Henc].
  destruct (encode_memo _ _ _ _) as [enc|e] eqn:Henc'; run_m; [|by inversion Henc].
  inversion Henc; subst; clear Henc.
  exists A, B, wif, sk, pk, enc.
  repeat split; try done.
  by rewrite <- !app_assoc.
Qed.

(** ** The ways [encrypt] fails on a non-empty plaintext *)

Lemma encrypt_no_from_account w memo :
  truthy memo = true →
  from_account (self w) = None →
  encrypt memo w = (Raise (AttributeError (no_attribute "from_account")), drawn w).
Proof.
  destruct w as [[st fa ta] raw pos tr]. intros Hmemo HA. run_m. subst fa.
  by rewrite Hmemo.
Qed.

Lemma encrypt_lookup_raises w memo A e :
  truthy memo = true →
  from_account (self w) = Some A →
  wallet_query w (PStr (memo_key A)) = Raise e →
  encrypt memo w = (Raise e, log (drawn w) [EvLookup (PStr (memo_key A))]).
Proof.
  destruct w as [[st fa ta] raw pos tr]. intros Hmemo HA Hw. run_m. subst fa.
  rewrite Hmemo. run_m. by rewrite Hw.
Qed.

Lemma encrypt_falsy_wif w memo A wif :
  truthy memo = true →
  from_account (self w) = Some A →
  wallet_query w (PStr (memo_key A)) = Return wif →
  truthy wif = false →
  encrypt memo w = (Raise (MissingKeyError (memo_key_missing (name A))),
                    log (drawn w) [EvLookup (PStr (memo_key A))]).
Proof.
  destruct w as [[st fa ta] raw pos tr]. intros Hmemo HA Hw Hwif. run_m. subst fa.
  rewrite Hmemo. run_m. rewrite Hw. run_m. by rewrite Hwif.
Qed.

Lemma encrypt_no_to_account w memo A wif sk :
  truthy memo = true →
  from_account (self w) = Some A →
  to_account (self w) = None →
  wallet_query w (PStr (memo_key A)) = Return wif →
  truthy wif = true →
  PrivateKey wif = Return sk →
  encrypt memo w = (Raise (AttributeError (no_attribute "to_account")),
                    log (drawn w) [EvLookup (PStr (memo_key A)); EvPrivateKey wif]).
Proof.
  destruct w as [[st fa ta] raw pos tr]. intros Hmemo HA HB Hw Hwif Hsk. run_m.
  subst fa ta. rewrite Hmemo. run_m. rewrite Hw. run_m. rewrite Hwif. run_m.
  rewrite Hsk. run_m. by rewrite <- !app_assoc.
Qed.

(** ** Running [decrypt] on an envelope with both keys, step by step *)

Lemma calls_since_log w evs : calls_since w (log w evs) = evs.
Proof. unfold calls_since, log; cbn. by rewrite drop_app_length. Qed.

Lemma resolve_role_run env w t f :
  env !! "to" = Some t →
  env !! "from" = Some f →
  resolve_role env w =
    match wallet_query w t with
    | Return wif => (Return (wif, f), log w [EvLookup t])
    | Raise (KeyNotFound _) =>
        match wallet_query w f with
        | Return wif => (Return (wif, t), log w [EvLookup t; EvLookup f])
        | Raise (KeyNotFound _) =>
            (Raise (MissingKeyError (need_any_of t f)),
             log w [EvLookup t; EvLookup f])
        | Raise e => (Raise e, log w [EvLookup t; EvLookup f])
        end
    | Raise e => (Raise e, log w [EvLookup t])
    end.
Proof.
  destruct w as [[st fa ta] raw pos tr]. intros Ht Hf. run_m.
  rewrite Ht, Hf. run_m.
  destruct (getPrivateKeyForPublicKey (wallet st) t) as [wif|e]; run_m; [done|].
  destruct e; run_m; try done.
  destruct (getPrivateKeyForPublicKey (wallet st) f) as [wif|e]; run_m;
    [by rewrite <- !app_assoc|].
  destruct e; run_m; by rewrite <- !app_assoc.
Qed.

Lemma decode_with_run env w wif pubkey :
  decode_with env wif pubkey w =
    let pfx := prefix (steem (self w)) in
    match PrivateKey wif with
    | Return sk =>
        match PublicKey pubkey pfx with
        | Return pk =>
            (decode_memo sk pk (dict_get env "nonce") (dict_get env "message"),
             log w [EvPrivateKey wif; EvPublicKey pubkey pfx;
                    EvDecode sk pk (dict_get env "nonce") (dict_get env "message")])
        | Raise e => (Raise e, log w [EvPrivateKey wif; EvPublicKey pubkey pfx])
        end
    | Raise e => (Raise e, log w [EvPrivateKey wif])
    end.
Proof.
  destruct w as [[st fa ta] raw pos tr]. run_m.
  destruct (PrivateKey wif) as [sk|e]; run_m; [|done].
  destruct (PublicKey pubkey (prefix st)) as [pk|e]; run_m;
    by rewrite <- !app_assoc.
Qed.

Lemma decrypt_run env w :
  env ≠ ∅ →
  decrypt (Some env) w =
    match resolve_role env w with
    | (Return (wif, pubkey), w1) => decode_with env wif pubkey w1
    | (Raise e, w1) => (Raise e, w1)
    end.
Proof.
  intros Hne. unfold decrypt. destruct (decide (env = ∅)) as [|_]; [done|].
  unfold mbind, M_bind, bind.
  by destruct (resolve_role env w) as [[[wif pubkey]|e] w1].
Qed.

Lemma lookup_Some_nonempty env key v : env !! key = Some v → env ≠ ∅.
Proof. intros H ->. by rewrite lookup_empty in H. Qed.

Lemma lookups_app evs evs' :
  lookups (evs ++ evs') = (lookups evs ++ lookups evs')%list.
Proof.
  induction evs as [|ev evs IH]; [done|].
  destruct ev; cbn; by rewrite ?IH.
Qed.

(** The final decode step makes no key-store query. *)
Lemma decode_with_calls env w wif pubkey :
  ∃ evs, snd (decode_with env wif pubkey w) = log w evs ∧
         lookups evs = [] ∧ head evs = Some (EvPrivateKey wif).
Proof.
  rewrite decode_with_run. cbv zeta.
  destruct (PrivateKey wif) as [sk|e]; [|by eexists].
  destruct (PublicKey pubkey _) as [pk|e]; by eexists.
Qed.



(** ** The order of the two roles *)




(** The calls and the outcome of the final decode step, spelled out. *)
Lemma decode_with_outcome env w wif pubkey :
  let pfx := prefix (steem (self w)) in
  let nonce := default PNone (env !! "nonce") in
  let message := default PNone (env !! "message") in
  ∃ evs,
    snd (decode_with env wif pubkey w) = log w (EvPrivateKey wif :: evs) ∧
    lookups evs = [] ∧
    ∀ sk, PrivateKey wif = Return sk →
      head evs = Some (EvPublicKey pubkey pfx) ∧
      ∀ pk, PublicKey pubkey pfx = Return pk →
        decode_with env wif pubkey w
          = (decode_memo sk pk nonce message,
             log w [EvPrivateKey wif; EvPublicKey pubkey pfx;
                    EvDecode sk pk nonce message]).
Proof.
  cbv zeta. rewrite decode_with_run. cbv zeta. unfold dict_get.
  destruct (PrivateKey wif) as [sk|e]; [|by exists []].
  destruct (PublicKey pubkey _) as [pk|e].
  - eexists [_; _]. split_and!; [done..|]. intros sk' [= <-]. split; [done|].
    by intros pk' [= <-].
  - eexists [_]. split_and!; [done..|]. intros sk' [= <-]. by split.
Qed.

(** The run of [decrypt] for each answer of the wallet. *)
Lemma decrypt_receiver_role env w t f wif :
  env !! "to" = Some t → env !! "from" = Some f →
  wallet_query w t = Return wif →
  decrypt (Some env) w = decode_with env wif f (log w [EvLookup t]).
Proof.
  intros Ht Hf Hw. rewrite (decrypt_run env w (lookup_Some_nonempty _ _ _ Ht)).
  by rewrite (resolve_role_run env w t f Ht Hf), Hw.
Qed.

Lemma decrypt_sender_role env w t f m wif :
  env !! "to" = Some t → env !! "from" = Some f →
  wallet_query w t = Raise (KeyNotFound m) →
  wallet_query w f = Return wif →
  decrypt (Some env) w = decode_with env wif t (log w [EvLookup t; EvLookup f]).
Proof.
  intros Ht Hf Hwt Hwf.
  rewrite (decrypt_run env w (lookup_Some_nonempty _ _ _ Ht)).
  by rewrite (resolve_role_run env w t f Ht Hf), Hwt, Hwf.
Qed.






(** ** The frame of a method body *)

Section Frame.
Context (P : Event → bool).

Lemma only_logs_ret {A} (a : A) : only_logs P (mret a).
Proof. intros w. exists []. by rewrite log_nil. Qed.

Lemma only_logs_raise {A} (e : exn) : only_logs P (raise e : M A).
Proof. intros w. exists []. by rewrite log_nil. Qed.

Lemma only_logs_bind {A B} (m : M A) (k : A → M B) :
  only_logs P m → (∀ a, only_logs P (k a)) → only_logs P (m ≫= k).
Proof.
  intros Hm Hk w. unfold mbind, M_bind, bind.
  destruct (Hm w) as (evs & Hw & HP).
  destruct (m w) as [[a|e] w1]; cbn in Hw; subst w1; [|by exists evs].
  destruct (Hk a (log w evs)) as (evs' & Hw' & HP').
  exists (evs ++ evs'). rewrite Hw', log_log, forallb_app, HP, HP'. done.
Qed.

Lemma only_logs_try {A} (body handler : M A) :
  only_logs P body → only_logs P handler →
  only_logs P (try_except_KeyNotFound body handler).
Proof.
  intros Hb Hh w. unfold try_except_KeyNotFound.
  destruct (Hb w) as (evs & Hw & HP).
  destruct (body w) as [[a|e] w1]; cbn in Hw; subst w1; [by exists evs|].
  destruct e; try by exists evs.
  destruct (Hh (log w evs)) as (evs' & Hw' & HP').
  exists (evs ++ evs'). rewrite Hw', log_log, forallb_app, HP, HP'. done.
Qed.

Lemma only_logs_call {A} (ev : Event) (r : Result A) :
  P ev = true → only_logs P (call ev r).
Proof. intros HP w. exists [ev]. cbn. by rewrite HP. Qed.

Lemma only_logs_self_steem : only_logs P self_steem.
Proof. intros w. exists []. by rewrite log_nil. Qed.

Lemma only_logs_self_from_account : only_logs P self_from_account.
Proof.
  intros w. exists []. rewrite log_nil. unfold self_from_account.
  by destruct (from_account (self w)).
Qed.

Lemma only_logs_self_to_account : only_logs P self_to_account.
Proof.
  intros w. exists []. rewrite log_nil. unfold self_to_account.
  by destruct (to_account (self w)).
Qed.

Lemma only_logs_getitem env key : only_logs P (getitem env key).
Proof.
  unfold getitem. destruct (env !! key);
    [apply only_logs_ret|apply only_logs_raise].
Qed.

Lemma only_logs_wallet_lookup k :
  P (EvLookup k) = true → only_logs P (wallet_lookup k).
Proof.
  intros HP. apply only_logs_bind; [apply only_logs_self_steem|].
  intros s. by apply only_logs_call.
Qed.

End Frame.

(** Frame goals follow the shape of the body. *)
Ltac frame_step :=
  first
    [ apply only_logs_self_steem
    | apply only_logs_self_from_account
    | apply only_logs_self_to_account
    | apply only_logs_getitem
    | apply only_logs_wallet_lookup; reflexivity
    | apply only_logs_call; reflexivity
    | apply only_logs_try
    | apply only_logs_bind; [|intros ?]
    | apply only_logs_raise
    | apply only_logs_ret
    | match goal with
      | |- only_logs _ (match ?x with _ => _ end) => destruct x
      end ].

Ltac frame := repeat frame_step.

Lemma resolve_role_only_logs env : only_logs is_query (resolve_role env).
Proof. unfold resolve_role. frame. Qed.

Lemma decode_with_only_logs env wif pubkey :
  only_logs is_query (decode_with env wif pubkey).
Proof. unfold decode_with. frame. Qed.

Lemma decrypt_only_logs (arg : option Envelope) :
  only_logs is_query (decrypt arg).
Proof.
  unfold decrypt. destruct arg as [env|]; [|apply only_logs_ret].
  destruct (decide (env = ∅)); [apply only_logs_ret|].
  apply only_logs_bind; [apply resolve_role_only_logs|].
  intros [wif pubkey]. apply decode_with_only_logs.
Qed.

(** After the draw, the rest of [encrypt] only records queries. *)
Lemma encrypt_only_logs_after_draw memo w :
  truthy memo = true →
  ∃ evs, snd (encrypt memo w) = log (drawn w) evs ∧ forallb is_query evs = true.
Proof.
  intros Hmemo. unfold encrypt. rewrite Hmemo. cbn [negb].
  unfold mbind at 1. unfold M_bind at 1. unfold bind at 1.
  unfold getrandbits. cbv beta iota. fold (drawn w). fold (draw64 w).
  match goal with
  | |- ∃ evs, snd (?rest ?w0) = _ ∧ _ =>
      assert (only_logs is_query rest) as Hrest by frame; exact (Hrest w0)
  end.
Qed.

(** ** Failures of the decode step *)


(** C4: once the wallet has returned a private key, for either role, an
    exception [e] raised by [decode_memo] is the exception [decrypt] raises,
    whatever [e] is, and the trace ends with the decode call: the key store
    is not queried again, so a failed decode never starts the fallback. *)
Theorem decode_failure_propagates env w t f wif sk e :
  env !! "to" = Some t →
  env !! "from" = Some f →
  PrivateKey wif = Return sk →
  let pfx := prefix (steem (self w)) in
  let nonce := dict_get env "nonce" in
  let message := dict_get env "message" in
  (∀ pk, wallet_query w t = Return wif →
     PublicKey f pfx = Return pk →
     decode_memo sk pk nonce message = Raise e →
     decrypt (Some env) w
       = (Raise e, log w [EvLookup t; EvPrivateKey wif; EvPublicKey f pfx;
                          EvDecode sk pk nonce message])) ∧
  (∀ m pk, wallet_query w t = Raise (KeyNotFound m) →
     wallet_query w f = Return wif →
     PublicKey t pfx = Return pk →
     decode_memo sk pk nonce message = Raise e →
     decrypt (Some env) w
       = (Raise e, log w [EvLookup t; EvLookup f; EvPrivateKey wif;
                          EvPublicKey t pfx; EvDecode sk pk nonce message])).
Proof.
  intros Ht Hf Hsk pfx nonce message. subst pfx nonce message.
  rewrite (decrypt_run env w (lookup_Some_nonempty _ _ _ Ht)).
  rewrite (resolve_role_run env w t f Ht Hf).
  split.
  - intros pk -> Hpk Hdec. rewrite decode_with_run. cbv zeta.
    rewrite Hsk. cbn [self log steem]. rewrite Hpk, Hdec. by rewrite log_log.
  - intros m pk -> -> Hpk Hdec. rewrite decode_with_run. cbv zeta.
    rewrite Hsk. cbn [self log steem]. rewrite Hpk, Hdec. by rewrite log_log.
Qed.

(** ** How the four fields are read *)

(** C9, as amended: [memo["to"]] and [memo["from"]] are subscripts.  A
    non-empty envelope without to raises [KeyError] before any call is
    made.  One without from raises [KeyError] once the query for
    [memo["to"]] has returned or has failed with [KeyNotFound]; an exception
    of another class raised by that query goes out instead, before
    [memo["from"]] is read.  [memo.get("nonce")] and [memo.get("message")]
    give [None] for a missing key, and that is what the codec receives, in
    either role. *)
Theorem decrypt_field_access env w :
  env ≠ ∅ →
  (env !! "to" = None → decrypt (Some env) w = (Raise (KeyError "to"), w)) ∧
  (∀ t, env !! "to" = Some t → env !! "from" = None →
     lookup_returns_or_KeyNotFound (wallet (steem (self w))) t →
     fst (decrypt (Some env) w) = Raise (KeyError "from")) ∧
  (∀ t e, env !! "to" = Some t → env !! "from" = None →
     wallet_query w t = Raise e → is_KeyNotFound e = false →
     decrypt (Some env) w = (Raise e, log w [EvLookup t])) ∧
  (∀ wif pubkey w1 sk pk,
     resolve_role env w = (Return (wif, pubkey), w1) →
     PrivateKey wif = Return sk →
     PublicKey pubkey (prefix (steem (self w))) = Return pk →
     let nonce := match env !! "nonce" with Some v => v | None => PNone end in
     let message := match env !! "message" with Some v => v | None => PNone end in
     fst (decrypt (Some env) w) = decode_memo sk pk nonce message ∧
     last (trace (snd (decrypt (Some env) w)))
       = Some (EvDecode sk pk nonce message)) ∧
  (∀ t f wif sk,
     env !! "to" = Some t → env !! "from" = Some f →
     PrivateKey wif = Return sk →
     let pfx := prefix (steem (self w)) in
     let nonce := match env !! "nonce" with Some v => v | None => PNone end in
     let message := match env !! "message" with Some v => v | None => PNone end in
     (∀ pk, wallet_query w t = Return wif → PublicKey f pfx = Return pk →
        decrypt (Some env) w
          = (decode_memo sk pk nonce message,
             log w [EvLookup t; EvPrivateKey wif; EvPublicKey f pfx;
                    EvDecode sk pk nonce message])) ∧
     (∀ m pk, wallet_query w t = Raise (KeyNotFound m) →
        wallet_query w f = Return wif → PublicKey t pfx = Return pk →
        decrypt (Some env) w
          = (decode_memo sk pk nonce message,
             log w [EvLookup t; EvLookup f; EvPrivateKey wif; EvPublicKey t pfx;
                    EvDecode sk pk nonce message]))).
Proof.
  intros Hne. split_and!.
  - rewrite (decrypt_run env w Hne).
    intros Ht. destruct w as [[st fa ta] raw pos tr]. run_m. by rewrite Ht.
  - rewrite (decrypt_run env w Hne).
    intros t Ht Hf Hcontract. unfold lookup_returns_or_KeyNotFound in Hcontract.
    destruct w as [[st fa ta] raw pos tr]. run_m. rewrite Ht, Hf. run_m.
    destruct (getPrivateKeyForPublicKey (wallet st) t) as [wif|e]; run_m; [done|].
    specialize (Hcontract e eq_refl). by destruct e.
  - rewrite (decrypt_run env w Hne).
    intros t e Ht Hf Hw He.
    destruct w as [[st fa ta] raw pos tr]. run_m. rewrite Ht. run_m.
    rewrite Hw. by destruct e.
  - rewrite (decrypt_run env w Hne).
    intros wif pubkey w1 sk pk H Hsk Hpk nonce message. rewrite H.
    assert (self w1 = self w) as Hself.
    { destruct (resolve_role_only_logs env w) as (evs & Hw1 & _).
      rewrite H in Hw1. cbn in Hw1. by subst w1. }
    rewrite decode_with_run. cbv zeta. rewrite Hsk, Hself, Hpk. cbn [fst snd].
    split; [done|]. unfold log; cbn. by rewrite last_app.
  - intros t f wif sk Ht Hf Hsk pfx nonce message. split.
    + intros pk Hw Hpk.
      rewrite (decrypt_receiver_role env w t f wif Ht Hf Hw).
      destruct (decode_with_outcome env (log w [EvLookup t]) wif f)
        as (evs & _ & _ & Hout).
      destruct (Hout sk Hsk) as [_ Hd]. rewrite (Hd pk Hpk). by rewrite log_log.
    + intros m pk Hwt Hwf Hpk.
      rewrite (decrypt_sender_role env w t f m wif Ht Hf Hwt Hwf).
      destruct (decode_with_outcome env (log w [EvLookup t; EvLookup f]) wif t)
        as (evs & _ & _ & Hout).
      destruct (Hout sk Hsk) as [_ Hd]. rewrite (Hd pk Hpk). by rewrite log_log.
Qed.

(** ** The Memo object is left as it was *)

(** C8, as amended: after [encrypt] and after [decrypt], whether the call
    returned or raised, the fields [steem], [from_account] and [to_account]
    are what they were.  [decrypt] changes nothing but the record of its
    key-store queries and [beembase] calls; [encrypt] of a falsy value
    changes nothing at all, and [encrypt] of a non-empty plaintext also
    draws once from the generator of [random], which advances it. *)
Theorem methods_leave_self_unchanged w memo (arg : option Envelope) :
  let we := snd (encrypt memo w) in
  let wd := snd (decrypt arg w) in
  (steem (self we) = steem (self w) ∧
   from_account (self we) = from_account (self w) ∧
   to_account (self we) = to_account (self w)) ∧
  (steem (self wd) = steem (self w) ∧
   from_account (self wd) = from_account (self w) ∧
   to_account (self wd) = to_account (self w)) ∧
  (∃ evs, forallb is_query evs = true ∧ wd = log w evs) ∧
  (∃ evs, forallb is_query evs = true ∧
          we = if truthy memo then log (drawn w) evs else w).
Proof.
  intros we wd.
  assert (∃ evs, forallb is_query evs = true ∧ wd = log w evs) as Hd.
  { destruct (decrypt_only_logs arg w) as (evs & H & HP). by exists evs. }
  assert (∃ evs, forallb is_query evs = true ∧
                 we = if truthy memo then log (drawn w) evs else w) as He.
  { destruct (truthy memo) eqn:Hmemo.
    - destruct (encrypt_only_logs_after_draw memo w Hmemo) as (evs & H & HP).
      by exists evs.
    - exists []. split; [done|]. subst we. unfold encrypt. by rewrite Hmemo. }
  split_and!; try done.
  - destruct He as (evs & _ & ->). by destruct (truthy memo).
  - destruct He as (evs & _ & ->). by destruct (truthy memo).
  - destruct He as (evs & _ & ->). by destruct (truthy memo).
  - by destruct Hd as (evs & _ & ->).
  - by destruct Hd as (evs & _ & ->).
  - by destruct Hd as (evs & _ & ->).
Qed.

(** ** Round trip through the envelope *)

(** Where the round trip does hold.  Let Alice and Bob have valid key
    pairs and let the codec round trip.  If Alice's [encrypt] of [memo]
    returns an envelope, then [decrypt] of that envelope returns exactly
    [memo], on any Memo object with the same key prefix whose wallet holds
    Bob's private key, or signals that it lacks it by raising [KeyNotFound]
    and holds Alice's.  A wallet that answers the miss with [None] is not
    covered, and [decrypt] fails on it. *)
Lemma encrypt_decrypt_round_trip
    (pubkey_of : priv → pub) w memo env w1 wd A B sk_s sk_r :
  codec_round_trip pubkey_of →
  from_account (self w) = Some A →
  to_account (self w) = Some B →
  key_pair pubkey_of (prefix (steem (self w))) sk_s (memo_key A) →
  key_pair pubkey_of (prefix (steem (self w))) sk_r (memo_key B) →
  holds_key (wallet (steem (self w))) (memo_key A) sk_s →
  encrypt memo w = (Return (Some env), w1) →
  prefix (steem (self wd)) = prefix (steem (self w)) →
  holds_key (wallet (steem (self wd))) (memo_key B) sk_r ∨
  ((∃ m, wallet_query wd (PStr (memo_key B)) = Raise (KeyNotFound m)) ∧
   holds_key (wallet (steem (self wd))) (memo_key A) sk_s) →
  fst (decrypt (Some env) wd) = Return memo.
Proof.
  intros Hcodec HA HB HkA HkB (wif0 & Hw0 & Hsk0) Henc Hpfx Hstore.
  apply encrypt_success_inv in Henc
    as (A' & B' & wif & sk & pk & enc & _ & HA' & HB' & Hw & _ & Hsk & Hpk & He
        & -> & _).
  assert (A' = A) as -> by congruence. assert (B' = B) as -> by congruence.
  unfold wallet_query in Hw. assert (wif = wif0) as -> by congruence.
  assert (sk = sk_s) as -> by congruence.
  unfold key_pair in HkA, HkB. assert (pk = pubkey_of sk_r) as -> by congruence.
  destruct (Hcodec _ _ _ _ _ He) as [Hrecv Hsend].
  set (env := <["message":=enc]> _).
  assert (env !! "to" = Some (PStr (memo_key B))) as Hto by done.
  assert (env !! "from" = Some (PStr (memo_key A))) as Hfrom by done.
  assert (dict_get env "nonce" = PStr (py_str_int (draw64 w))) as Hn by done.
  assert (dict_get env "message" = enc) as Hm by done.
  rewrite (decrypt_run env wd (lookup_Some_nonempty _ _ _ Hto)).
  rewrite (resolve_role_run env wd _ _ Hto Hfrom). unfold wallet_query.
  destruct Hstore as [(wif_r & Hwr & Hskr) | [[m Hmiss] (wif_s & Hws & Hsks)]].
  - rewrite Hwr, decode_with_run. cbv zeta. rewrite Hskr. cbn [self log steem].
    rewrite Hpfx, HkA, Hn, Hm. exact Hrecv.
  - unfold wallet_query in Hmiss. rewrite Hmiss, Hws, decode_with_run. cbv zeta.
    rewrite Hsks. cbn [self log steem].
    rewrite Hpfx, HkB, Hn, Hm. exact Hsend.
Qed.

(** ** What [__init__] assigns *)

Lemma Memo_init_attributes from_arg to_arg st m :
  Memo_init from_arg to_arg st = Return m →
  steem m = default shared_steem_instance st ∧
  (if truthy from_arg
   then ∃ A, Account_new from_arg (steem m) = Return A ∧ from_account m = Some A
   else from_account m = None) ∧
  (if truthy to_arg
   then ∃ B, Account_new to_arg (steem m) = Return B ∧ to_account m = Some B
   else to_account m = None).
Proof.
  unfold Memo_init, mbind, Result_bind. intros H.
  destruct (truthy to_arg), (truthy from_arg);
    repeat match type of H with
      | context [Account_new ?a ?s] => destruct (Account_new a s) eqn:?
      end;
    try discriminate H; injection H as <-; cbn; split_and?; eauto.
Qed.

(** C10, as amended: [__init__] assigns [from_account] and [to_account]
    exactly when the matching argument is truthy.  On a Memo built without
    [from_account], [encrypt] of a non-empty plaintext raises
    [AttributeError].  On a Memo built with [from_account] and without
    [to_account], it raises [AttributeError] once the wallet has returned a
    truthy WIF for the sender's memo key and [PrivateKey] has accepted it;
    when the wallet returns a falsy value it raises [MissingKeyError]. *)
Theorem init_then_encrypt_attribute_errors from_arg to_arg st m w memo :
  Memo_init from_arg to_arg st = Return m →
  self w = m →
  truthy memo = true →
  (from_account m = None ↔ truthy from_arg = false) ∧
  (to_account m = None ↔ truthy to_arg = false) ∧
  (truthy from_arg = false →
     fst (encrypt memo w) = Raise (AttributeError (no_attribute "from_account"))) ∧
  (truthy from_arg = true → truthy to_arg = false →
     ∃ A, from_account m = Some A ∧
       ∀ wif, wallet_query w (PStr (memo_key A)) = Return wif →
         (truthy wif = false →
            fst (encrypt memo w)
              = Raise (MissingKeyError (memo_key_missing (name A)))) ∧
         (truthy wif = true → ∀ sk, PrivateKey wif = Return sk →
            fst (encrypt memo w)
              = Raise (AttributeError (no_attribute "to_account")))).
Proof.
  intros Hinit Hself Hmemo.
  apply Memo_init_attributes in Hinit as (_ & Hfrom & Hto).
  split_and!.
  - destruct (truthy from_arg); [|done].
    destruct Hfrom as (A & _ & ->). split; discriminate.
  - destruct (truthy to_arg); [|done].
    destruct Hto as (B & _ & ->). split; discriminate.
  - intros Hf. rewrite Hf in Hfrom.
    rewrite (encrypt_no_from_account w memo); [done..|congruence].
  - intros Hf Ht. rewrite Hf in Hfrom. rewrite Ht in Hto.
    destruct Hfrom as (A & _ & HA). exists A. split; [done|].
    intros wif Hw. split.
    + intros Hwif. by rewrite (encrypt_falsy_wif w memo A wif); [|congruence..].
    + intros Hwif sk Hsk.
      by rewrite (encrypt_no_to_account w memo A wif sk); [|congruence..].
Qed.

(** Every falsy value is [None] or the empty string. *)
Lemma falsy_inv memo : truthy memo = false ↔ memo = PNone ∨ memo = PStr "".
Proof.
  split.
  - destruct memo as [|[|c s]]; simpl; intros H; auto; discriminate.
  - intros [-> | ->]; reflexivity.
Qed.

Lemma encrypt_truthy_returns_envelope w memo r w' :
  truthy memo = true → encrypt memo w = (Return r, w') → ∃ env, r = Some env.
Proof.
  destruct w as [[st fa ta] raw pos tr]. intros Hmemo Henc. run_m.
  rewrite Hmemo in Henc. run_m.
  destruct fa as [A|]; run_m; [|by inversion Henc].
  destruct (getPrivateKeyForPublicKey _ _) as [wif|e]; run_m; [|by inversion Henc].
  destruct (truthy wif); run_m; [|by inversion Henc].
  destruct (PrivateKey wif) as [sk|e]; run_m; [|by inversion Henc].
  destruct ta as [B|]; run_m; [|by inversion Henc].
  destruct (PublicKey _ _) as [pk|e]; run_m; [|by inversion Henc].
  destruct (encode_memo _ _ _ _) as [enc|e]; run_m; [|by inversion Henc].
  inversion Henc; eauto.
Qed.

(** ** Absent and empty input *)

(** C5: [encrypt] of [None] or of the empty string, and [decrypt] of [None]
    or of the empty dict, return [None] and leave the world as it was: no
    key-store query, no nonce drawn, no codec call, and no exception. *)
Theorem absent_input_is_noop w :
  encrypt PNone w = (Return None, w) ∧
  encrypt (PStr "") w = (Return None, w) ∧
  decrypt None w = (Return PNone, w) ∧
  decrypt (Some ∅) w = (Return PNone, w).
Proof. repeat split. Qed.

(** ** The envelope [encrypt] builds *)

(** C6: a successful [encrypt] of a non-empty plaintext returns a dict
    with exactly the keys from, to, nonce and message: from and to are the
    public memo keys of the two accounts, nonce is the string drawn for
    this call, the very one handed to the codec, and message is what
    [encode_memo] returned for the sender's private key, the receiver's
    public key, that nonce and the plaintext. *)
Theorem encrypt_envelope_contents w memo r w' :
  truthy memo = true →
  encrypt memo w = (Return r, w') →
  ∃ env A B wif sk pk enc nonce,
    r = Some env ∧
    from_account (self w) = Some A ∧
    to_account (self w) = Some B ∧
    nonce = PStr (py_str_int (draw64 w)) ∧
    wallet_query w (PStr (memo_key A)) = Return wif ∧
    PrivateKey wif = Return sk ∧
    PublicKey (PStr (memo_key B)) (prefix (steem (self w))) = Return pk ∧
    encode_memo sk pk nonce memo = Return enc ∧
    dom env = ({[ "from"; "to"; "nonce"; "message" ]} : gset string) ∧
    env !! "from" = Some (PStr (memo_key A)) ∧
    env !! "to" = Some (PStr (memo_key B)) ∧
    env !! "nonce" = Some nonce ∧
    env !! "message" = Some enc ∧
    calls_since w w'
      = [EvGetRandBits 64; EvLookup (PStr (memo_key A)); EvPrivateKey wif;
         EvPublicKey (PStr (memo_key B)) (prefix (steem (self w)));
         EvEncode sk pk nonce memo].
Proof.
  intros Hmemo Henc.
  destruct (encrypt_truthy_returns_envelope _ _ _ _ Hmemo Henc) as [env ->].
  apply encrypt_success_inv in Henc
    as (A & B & wif & sk & pk & enc & _ & HA & HB & Hw & _ & Hsk & Hpk & He & -> & ->).
  eexists _, A, B, wif, sk, pk, enc, _.
  split; [reflexivity|]. split_and!; try done.
  unfold calls_since, log, drawn; cbn. by rewrite <- app_assoc, drop_app_length.
Qed.

(** ** The nonce *)

Lemma py_str_int_reads_back (n : Z) :
  (0 ≤ n)%Z → NilZero.int_of_string (py_str_int n) = Some (Z.to_int n).
Proof.
  intros Hn. unfold py_str_int. apply NilZero.isi.
  - destruct n as [|p|p]; simpl; try discriminate.
    intros [= H]. by apply DecimalPos.Unsigned.to_uint_nonnil in H.
  - destruct n as [|p|p]; simpl; try discriminate. lia.
Qed.

Lemma draw64_range w : (0 ≤ draw64 w < 2 ^ 64)%Z.
Proof.
  unfold draw64. rewrite Z.land_ones by lia. apply Z.mod_pos_bound. lia.
Qed.

(** C7: the nonce of a successful [encrypt] is [str(n)] for the integer
    [n] that [random.getrandbits(64)] yields in this call, [0 <= n < 2^64];
    the string is decimal (it reads back as [n]), and the generator has
    advanced by exactly this one draw. *)
Theorem encrypt_nonce_is_uint64 w memo r w' :
  truthy memo = true →
  encrypt memo w = (Return r, w') →
  ∃ env n,
    r = Some env ∧
    n = draw64 w ∧
    (0 ≤ n < 2 ^ 64)%Z ∧
    env !! "nonce" = Some (PStr (py_str_int n)) ∧
    NilZero.int_of_string (py_str_int n) = Some (Z.to_int n) ∧
    rng_pos w' = S (rng_pos w) ∧
    filter (λ ev, is_rng_draw ev = true) (calls_since w w') = [EvGetRandBits 64].
Proof.
  intros Hmemo Henc.
  destruct (encrypt_truthy_returns_envelope _ _ _ _ Hmemo Henc) as [env ->].
  apply encrypt_success_inv in Henc
    as (A & B & wif & sk & pk & enc & _ & HA & HB & Hw & _ & Hsk & Hpk & He & -> & ->).
  eexists _, (draw64 w). pose proof (draw64_range w) as Hr.
  split; [reflexivity|]. split_and!; try done; try lia.
  - apply py_str_int_reads_back. lia.
  - unfold calls_since, log, drawn; cbn.
    rewrite <- app_assoc, drop_app_length. reflexivity.
Qed.

(** * Further properties of the method bodies *)

(** ** What a body reads *)

Section Respects.
Context (R : World → World → Prop).
Hypothesis R_log : ∀ w1 w2 evs, R w1 w2 → R (log w1 evs) (log w2 evs).
Hypothesis R_steem : ∀ w1 w2, R w1 w2 → steem (self w1) = steem (self w2).

Lemma respects_ret {A} (a : A) : respects R (mret a).
Proof. intros w1 w2 _. exists []. by rewrite !log_nil. Qed.

Lemma respects_raise {A} (e : exn) : respects R (raise e : M A).
Proof. intros w1 w2 _. exists []. by rewrite !log_nil. Qed.

Lemma respects_bind {A B} (m : M A) (k : A → M B) :
  respects R m → (∀ a, respects R (k a)) → respects R (m ≫= k).
Proof.
  intros Hm Hk w1 w2 HR. unfold mbind, M_bind, bind.
  destruct (Hm w1 w2 HR) as (evs & Hr & H1 & H2).
  destruct (m w1) as [r1 w1'], (m w2) as [r2 w2']. cbn in Hr, H1, H2. subst.
  destruct r2 as [a|e]; [|by exists evs].
  destruct (Hk a _ _ (R_log _ _ evs HR)) as (evs' & Hr' & H1' & H2').
  exists (evs ++ evs'). by rewrite Hr', H1', H2', !log_log.
Qed.

Lemma respects_try {A} (body handler : M A) :
  respects R body → respects R handler →
  respects R (try_except_KeyNotFound body handler).
Proof.
  intros Hb Hh w1 w2 HR. unfold try_except_KeyNotFound.
  destruct (Hb w1 w2 HR) as (evs & Hr & H1 & H2).
  destruct (body w1) as [r1 w1'], (body w2) as [r2 w2']. cbn in Hr, H1, H2. subst.
  destruct r2 as [a|e]; [by exists evs|].
  destruct e; try by exists evs.
  destruct (Hh _ _ (R_log _ _ evs HR)) as (evs' & Hr' & H1' & H2').
  exists (evs ++ evs'). by rewrite Hr', H1', H2', !log_log.
Qed.

Lemma respects_call {A} (ev : Event) (r : Result A) : respects R (call ev r).
Proof. intros w1 w2 _. by exists [ev]. Qed.

Lemma respects_self_steem : respects R self_steem.
Proof.
  intros w1 w2 HR. exists []. rewrite !log_nil. unfold self_steem; cbn.
  by rewrite (R_steem _ _ HR).
Qed.

Lemma respects_getitem env key : respects R (getitem env key).
Proof.
  unfold getitem. destruct (env !! key); [apply respects_ret|apply respects_raise].
Qed.

Lemma respects_wallet_lookup k : respects R (wallet_lookup k).
Proof.
  apply respects_bind; [apply respects_self_steem|].
  intros s. apply respects_call.
Qed.

End Respects.

Lemma same_steem_log w1 w2 evs :
  same_steem w1 w2 → same_steem (log w1 evs) (log w2 evs).
Proof. done. Qed.

Lemma same_self_log w1 w2 evs :
  same_self w1 w2 → same_self (log w1 evs) (log w2 evs).
Proof. done. Qed.

Lemma same_self_steem w1 w2 : same_self w1 w2 → steem (self w1) = steem (self w2).
Proof. by intros ->. Qed.

Lemma respects_self_from_account : respects same_self self_from_account.
Proof.
  intros w1 w2 HR. exists []. rewrite !log_nil. unfold self_from_account.
  rewrite HR. by destruct (from_account (self w2)).
Qed.

Lemma respects_self_to_account : respects same_self self_to_account.
Proof.
  intros w1 w2 HR. exists []. rewrite !log_nil. unfold self_to_account.
  rewrite HR. by destruct (to_account (self w2)).
Qed.

(** Goals on [respects] follow the shape of the body, as frame goals do. *)
Ltac respects_step R_log R_steem :=
  first
    [ apply (respects_self_steem _ R_steem)
    | apply respects_self_from_account
    | apply respects_self_to_account
    | apply respects_getitem
    | apply (respects_wallet_lookup _ R_log R_steem)
    | apply respects_call
    | apply (respects_try _ R_log)
    | apply (respects_bind _ R_log); [|intros ?]
    | apply respects_raise
    | apply respects_ret
    | match goal with
      | |- respects _ (match ?x with _ => _ end) => destruct x
      end ].

Lemma decrypt_respects_same_steem (arg : option Envelope) :
  respects same_steem (decrypt arg).
Proof.
  unfold decrypt, resolve_role, decode_with.
  repeat respects_step same_steem_log (λ w1 w2 (H : same_steem w1 w2), H).
Qed.

(** X4: [decrypt] reads nothing of the Memo object but its Steem instance.
    On two Memo objects over the same Steem instance, whatever their
    [from_account] and [to_account] (set or not), the state of the generator
    and the calls made before, it gives the same outcome and makes the same
    calls. *)
Theorem decrypt_reads_only_steem (arg : option Envelope) w1 w2 :
  steem (self w1) = steem (self w2) →
  fst (decrypt arg w1) = fst (decrypt arg w2) ∧
  calls_since w1 (snd (decrypt arg w1)) = calls_since w2 (snd (decrypt arg w2)).
Proof.
  intros HR.
  destruct (decrypt_respects_same_steem arg w1 w2 HR) as (evs & Hr & -> & ->).
  by rewrite !calls_since_log.
Qed.

Lemma calls_since_drawn w evs :
  calls_since w (log (drawn w) evs) = EvGetRandBits 64 :: evs.
Proof.
  unfold calls_since, log, drawn; cbn. by rewrite <- app_assoc, drop_app_length.
Qed.

(** X6: [encrypt] is a function of the Memo object, the plaintext and the
    64 low bits of the next word of the generator: on two worlds that agree
    on those, it gives the same outcome (the same envelope, or the same
    exception) and makes the same calls. *)
Theorem encrypt_reads_self_and_draw memo w1 w2 :
  self w1 = self w2 →
  draw64 w1 = draw64 w2 →
  fst (encrypt memo w1) = fst (encrypt memo w2) ∧
  calls_since w1 (snd (encrypt memo w1)) = calls_since w2 (snd (encrypt memo w2)).
Proof.
  intros Hself Hdraw. unfold encrypt.
  destruct (truthy memo); cbn [negb].
  2:{ cbn. unfold calls_since. by rewrite !drop_all. }
  match goal with
  | |- context [@mbind _ _ _ _ ?k (getrandbits 64)] =>
      assert (∀ n, respects same_self (k n)) as Hk
        by (intros n; cbv beta zeta;
            repeat respects_step same_self_log same_self_steem);
      change (@mbind _ _ _ _ k (getrandbits 64) w1) with (k (draw64 w1) (drawn w1));
      change (@mbind _ _ _ _ k (getrandbits 64) w2) with (k (draw64 w2) (drawn w2))
  end.
  rewrite Hdraw.
  destruct (Hk (draw64 w2) (drawn w1) (drawn w2) Hself) as (evs & Hr & -> & ->).
  by rewrite !calls_since_drawn.
Qed.

(** ** Exceptions [decrypt] lets through, and the one it never does *)

Lemma never_KeyNotFound_ret {A} (a : A) : never_KeyNotFound (mret a).
Proof. by intros w e. Qed.

Lemma never_KeyNotFound_raise {A} (e : exn) :
  is_KeyNotFound e = false → never_KeyNotFound (raise e : M A).
Proof. by intros He w e' [= <-]. Qed.

Lemma never_KeyNotFound_bind {A B} (m : M A) (k : A → M B) :
  never_KeyNotFound m → (∀ a, never_KeyNotFound (k a)) →
  never_KeyNotFound (m ≫= k).
Proof.
  intros Hm Hk w e. unfold mbind, M_bind, bind.
  specialize (Hm w). destruct (m w) as [[a|e0] w']; [apply Hk|].
  cbn. intros [= <-]. by apply Hm.
Qed.

(** Whatever its body does, a [try] ... [except KeyNotFound] raises no
    [KeyNotFound] if its handler raises none. *)
Lemma never_KeyNotFound_try {A} (body handler : M A) :
  never_KeyNotFound handler →
  never_KeyNotFound (try_except_KeyNotFound body handler).
Proof.
  intros Hh w e. unfold try_except_KeyNotFound.
  destruct (body w) as [[a|e0] w']; [done|].
  destruct e0; try (by intros [= <-]). apply Hh.
Qed.

Lemma never_KeyNotFound_getitem env key : never_KeyNotFound (getitem env key).
Proof.
  unfold getitem. destruct (env !! key);
    [apply never_KeyNotFound_ret|by apply never_KeyNotFound_raise].
Qed.

Lemma never_KeyNotFound_call {A} (ev : Event) (r : Result A) :
  (∀ e, r = Raise e → is_KeyNotFound e = false) →
  never_KeyNotFound (call ev r).
Proof. intros Hr w e. cbn. apply Hr. Qed.

Lemma never_KeyNotFound_self_steem : never_KeyNotFound self_steem.
Proof. by intros w e. Qed.

Lemma resolve_role_never_KeyNotFound env : never_KeyNotFound (resolve_role env).
Proof.
  unfold resolve_role. do 2 apply never_KeyNotFound_try.
  apply never_KeyNotFound_bind; [apply never_KeyNotFound_getitem|intros to_].
  apply never_KeyNotFound_bind; [apply never_KeyNotFound_getitem|intros from_].
  by apply never_KeyNotFound_raise.
Qed.

Lemma decode_with_never_KeyNotFound env wif pubkey :
  beembase_never_raises_KeyNotFound →
  never_KeyNotFound (decode_with env wif pubkey).
Proof.
  intros (Hsk & Hpk & Hdec). unfold decode_with.
  apply never_KeyNotFound_bind; [apply never_KeyNotFound_call, Hsk|intros sk].
  apply never_KeyNotFound_bind; [apply never_KeyNotFound_self_steem|intros st].
  apply never_KeyNotFound_bind; [apply never_KeyNotFound_call, Hpk|intros pk].
  apply never_KeyNotFound_call, Hdec.
Qed.

(** X7: no [KeyNotFound] of the wallet leaves [decrypt].  Whatever the
    argument and whatever the wallet raises, [decrypt] raises a
    [KeyNotFound] only if [PrivateKey], [PublicKey] or [decode_memo] raised
    it; so it raises none when those three raise none. *)
Theorem decrypt_never_raises_wallet_KeyNotFound (arg : option Envelope) w msg :
  beembase_never_raises_KeyNotFound →
  fst (decrypt arg w) ≠ Raise (KeyNotFound msg).
Proof.
  intros Hbb Hraise.
  assert (never_KeyNotFound (decrypt arg)) as Hnever.
  { unfold decrypt. destruct arg as [env|]; [|apply never_KeyNotFound_ret].
    destruct (decide (env = ∅)); [apply never_KeyNotFound_ret|].
    apply never_KeyNotFound_bind; [apply resolve_role_never_KeyNotFound|].
    intros [wif pubkey]. by apply decode_with_never_KeyNotFound. }
  by apply Hnever in Hraise.
Qed.

(** X8: an exception of the wallet of another class than [KeyNotFound] (a
    locked wallet, say) ends [decrypt] at once and unchanged: raised by the
    query for [memo["to"]], the other role is not tried; raised by the query
    for [memo["from"]], it is not turned into [MissingKeyError].  No call
    into [beembase] is made. *)
Theorem decrypt_wallet_error_propagates env w t e :
  env !! "to" = Some t →
  is_KeyNotFound e = false →
  (wallet_query w t = Raise e →
     decrypt (Some env) w = (Raise e, log w [EvLookup t])) ∧
  (∀ f m, env !! "from" = Some f →
     wallet_query w t = Raise (KeyNotFound m) →
     wallet_query w f = Raise e →
     decrypt (Some env) w = (Raise e, log w [EvLookup t; EvLookup f])).
Proof.
  intros Ht He. rewrite (decrypt_run env w (lookup_Some_nonempty _ _ _ Ht)).
  split.
  - destruct w as [[st fa ta] raw pos tr]. run_m. rewrite Ht. run_m.
    intros ->. by destruct e.
  - intros f m Hf Hwt Hwf. rewrite (resolve_role_run env w t f Ht Hf), Hwt, Hwf.
    by destruct e.
Qed.

(** X9: a key that [PrivateKey] or [PublicKey] rejects ends [decrypt] with
    the constructor's exception, for either role.  In particular [decrypt]
    does not test the value the wallet returned: a falsy one ([None]) goes
    to [PrivateKey] like any other, and the other role is not tried. *)
Theorem decrypt_key_constructor_failure env w t f wif e :
  env !! "to" = Some t →
  env !! "from" = Some f →
  let pfx := prefix (steem (self w)) in
  (wallet_query w t = Return wif → PrivateKey wif = Raise e →
     decrypt (Some env) w = (Raise e, log w [EvLookup t; EvPrivateKey wif])) ∧
  (∀ sk, wallet_query w t = Return wif → PrivateKey wif = Return sk →
     PublicKey f pfx = Raise e →
     decrypt (Some env) w
       = (Raise e, log w [EvLookup t; EvPrivateKey wif; EvPublicKey f pfx])) ∧
  (∀ m, wallet_query w t = Raise (KeyNotFound m) →
     wallet_query w f = Return wif → PrivateKey wif = Raise e →
     decrypt (Some env) w
       = (Raise e, log w [EvLookup t; EvLookup f; EvPrivateKey wif])) ∧
  (∀ m sk, wallet_query w t = Raise (KeyNotFound m) →
     wallet_query w f = Return wif → PrivateKey wif = Return sk →
     PublicKey t pfx = Raise e →
     decrypt (Some env) w
       = (Raise e, log w [EvLookup t; EvLookup f; EvPrivateKey wif;
                          EvPublicKey t pfx])).
Proof.
  intros Ht Hf pfx. subst pfx.
  rewrite (decrypt_run env w (lookup_Some_nonempty _ _ _ Ht)).
  rewrite (resolve_role_run env w t f Ht Hf).
  split_and!.
  - intros -> Hsk. rewrite decode_with_run. cbv zeta. rewrite Hsk.
    by rewrite log_log.
  - intros sk -> Hsk Hpk. rewrite decode_with_run. cbv zeta. rewrite Hsk.
    cbn [self log steem]. rewrite Hpk. by rewrite log_log.
  - intros m -> -> Hsk. rewrite decode_with_run. cbv zeta. rewrite Hsk.
    by rewrite log_log.
  - intros m sk -> -> Hsk Hpk. rewrite decode_with_run. cbv zeta. rewrite Hsk.
    cbn [self log steem]. rewrite Hpk. by rewrite log_log.
Qed.

(** ** The keys of the envelope that matter *)

(** X10: [decrypt] reads the keys to, from, nonce and message of the
    envelope and no other: two non-empty dicts that agree on these four are
    decrypted alike, whatever else they hold. *)
Theorem decrypt_reads_four_keys env1 env2 w :
  env1 ≠ ∅ → env2 ≠ ∅ →
  env1 !! "to" = env2 !! "to" →
  env1 !! "from" = env2 !! "from" →
  env1 !! "nonce" = env2 !! "nonce" →
  env1 !! "message" = env2 !! "message" →
  decrypt (Some env1) w = decrypt (Some env2) w.
Proof.
  intros H1 H2 Hto Hfrom Hnonce Hmessage.
  rewrite (decrypt_run env1 w H1), (decrypt_run env2 w H2).
  assert (resolve_role env1 w = resolve_role env2 w) as ->.
  { unfold resolve_role, getitem. by rewrite Hto, Hfrom. }
  destruct (resolve_role env2 w) as [[[wif pubkey]|e] w1]; [|done].
  unfold decode_with, dict_get. by rewrite Hnonce, Hmessage.
Qed.

(** ** How often the wallet is asked *)

Lemma resolve_role_lookups env w :
  ∃ evs, snd (resolve_role env w) = log w evs ∧
         lookups evs `prefix_of` keys_asked env.
Proof.
  unfold keys_asked.
  destruct w as [[st fa ta] raw pos tr]. run_m.
  destruct (env !! "to") as [t|]; run_m.
  2:{ exists []. split; [by rewrite app_nil_r|]. apply prefix_nil. }
  destruct (getPrivateKeyForPublicKey (wallet st) t) as [wif|e]; run_m.
  { exists [EvLookup t]. destruct (env !! "from") as [f|]; run_m;
      (split; [done|]); cbn; [by exists [f]|done]. }
  destruct (env !! "from") as [f|]; run_m.
  2:{ exists [EvLookup t]. split; [by destruct e|done]. }
  destruct e; run_m; try by (exists [EvLookup t]; split; [done|by exists [f]]).
  exists [EvLookup t; EvLookup f]. split; [|done].
  destruct (getPrivateKeyForPublicKey (wallet st) f) as [wif|e]; run_m;
    [|destruct e; run_m]; by rewrite <- !app_assoc.
Qed.

(** X11: [decrypt] asks the wallet at most twice, for [memo["to"]] and then
    for [memo["from"]], and for nothing else: on every argument and whatever
    happens, the keys it asked for are a prefix of that list.  On [None] and
    on the empty dict it asks for none. *)
Theorem decrypt_wallet_queries (arg : option Envelope) w :
  lookups (calls_since w (snd (decrypt arg w)))
    `prefix_of` from_option keys_asked [] arg.
Proof.
  destruct arg as [env|]; cbn [from_option].
  2:{ cbn. unfold calls_since. rewrite drop_all. done. }
  destruct (decide (env = ∅)) as [->|Hne].
  { cbn. unfold calls_since. rewrite drop_all. apply prefix_nil. }
  rewrite (decrypt_run env w Hne).
  destruct (resolve_role_lookups env w) as (evs & Hw & Hpre).
  destruct (resolve_role env w) as [[[wif pubkey]|e] w1]; cbn in Hw; subst w1.
  - destruct (decode_with_calls env (log w evs) wif pubkey) as (evs' & -> & Hl & _).
    by rewrite log_log, calls_since_log, lookups_app, Hl, app_nil_r.
  - cbn [snd]. by rewrite calls_since_log.
Qed.

(** ** [encrypt], case by case *)

(** The envelope [encrypt] returns. *)
Lemma encrypt_run w memo :
  truthy memo = true →
  let nonce := PStr (py_str_int (draw64 w)) in
  let pfx := prefix (steem (self w)) in
  encrypt memo w =
    match from_account (self w) with
    | None => (Raise (AttributeError (no_attribute "from_account")), drawn w)
    | Some A =>
        let ask := EvLookup (PStr (memo_key A)) in
        match wallet_query w (PStr (memo_key A)) with
        | Raise e => (Raise e, log (drawn w) [ask])
        | Return wif =>
            if truthy wif then
              match PrivateKey wif with
              | Raise e => (Raise e, log (drawn w) [ask; EvPrivateKey wif])
              | Return sk =>
                  match to_account (self w) with
                  | None => (Raise (AttributeError (no_attribute "to_account")),
                             log (drawn w) [ask; EvPrivateKey wif])
                  | Some B =>
                      let mk := EvPublicKey (PStr (memo_key B)) pfx in
                      match PublicKey (PStr (memo_key B)) pfx with
                      | Raise e => (Raise e, log (drawn w) [ask; EvPrivateKey wif; mk])
                      | Return pk =>
                          let enc_call := EvEncode sk pk nonce memo in
                          match encode_memo sk pk nonce memo with
                          | Raise e =>
                              (Raise e,
                               log (drawn w) [ask; EvPrivateKey wif; mk; enc_call])
                          | Return enc =>
                              (Return (Some (<["message" := enc]>
                                 (<["nonce" := nonce]>
                                   (<["from" := PStr (memo_key A)]>
                                     (<["to" := PStr (memo_key B)]> ∅))))),
                               log (drawn w) [ask; EvPrivateKey wif; mk; enc_call])
                          end
                      end
                  end
              end
            else (Raise (MissingKeyError (memo_key_missing (name A))),
                  log (drawn w) [ask])
        end
    end.
Proof.
  destruct w as [[st fa ta] raw pos tr]. intros Hmemo. run_m. rewrite Hmemo. run_m.
  destruct fa as [A|]; run_m; [|done].
  destruct (getPrivateKeyForPublicKey _ _) as [wif|e]; run_m; [|done].
  destruct (truthy wif); run_m; [|done].
  destruct (PrivateKey wif) as [sk|e]; run_m; [|by rewrite <- !app_assoc].
  destruct ta as [B|]; run_m; [|by rewrite <- !app_assoc].
  destruct (PublicKey _ _) as [pk|e]; run_m; [|by rewrite <- !app_assoc].
  destruct (encode_memo _ _ _ _) as [enc|e]; run_m; by rewrite <- !app_assoc.
Qed.

Lemma calls_since_refl w : calls_since w w = [].
Proof. unfold calls_since. by rewrite drop_all. Qed.

(** X12: [encrypt] asks the wallet at most once, and only for the memo key
    of [from_account]; and it calls into [beembase] ([PrivateKey],
    [PublicKey], [encode_memo]) only after the wallet has returned a truthy
    value for that key. *)
Theorem encrypt_wallet_queries memo w :
  let calls := calls_since w (snd (encrypt memo w)) in
  (lookups calls = [] ∨
   ∃ A, from_account (self w) = Some A ∧ lookups calls = [PStr (memo_key A)]) ∧
  (∀ ev, ev ∈ calls → is_codec_call ev = true →
     ∃ A wif, from_account (self w) = Some A ∧
       wallet_query w (PStr (memo_key A)) = Return wif ∧ truthy wif = true).
Proof.
  intros calls. subst calls.
  destruct (truthy memo) eqn:Hmemo.
  2:{ unfold encrypt. rewrite Hmemo. cbn [negb ret snd]. rewrite calls_since_refl.
      split; [by left|]. intros ev Hev. by apply elem_of_nil in Hev. }
  rewrite (encrypt_run w memo Hmemo). cbv zeta.
  assert (∀ ev, ev ∈ [EvGetRandBits 64] → is_codec_call ev = true → False) as Hdraw.
  { intros ev [->|Hev]%elem_of_cons; [done|by apply elem_of_nil in Hev]. }
  destruct (from_account (self w)) as [A|]; cbn [snd].
  2:{ rewrite <- (log_nil (drawn w)), calls_since_drawn.
      split; [by left|]. intros ev Hev Hc. by destruct (Hdraw ev Hev Hc). }
  assert (∀ ev, ev ∈ [EvGetRandBits 64; EvLookup (PStr (memo_key A))] →
            is_codec_call ev = true → False) as Hask.
  { intros ev [->|[->|Hev]%elem_of_cons]%elem_of_cons; [done..|].
    by apply elem_of_nil in Hev. }
  destruct (wallet_query w (PStr (memo_key A))) as [wif|e] eqn:Hw; cbn [snd].
  2:{ rewrite calls_since_drawn. split; [right; by exists A|].
      intros ev Hev Hc. by destruct (Hask ev Hev Hc). }
  destruct (truthy wif) eqn:Hwif; cbn [snd].
  2:{ rewrite calls_since_drawn. split; [right; by exists A|].
      intros ev Hev Hc. by destruct (Hask ev Hev Hc). }
  split.
  - right. exists A. split; [done|].
    destruct (PrivateKey wif) as [sk|e]; [|by cbn [snd]; rewrite calls_since_drawn].
    destruct (to_account (self w)) as [B|];
      [|by cbn [snd]; rewrite calls_since_drawn].
    destruct (PublicKey _ _) as [pk|e]; [|by cbn [snd]; rewrite calls_since_drawn].
    destruct (encode_memo _ _ _ _) as [enc|e];
      by cbn [snd]; rewrite calls_since_drawn.
  - intros _ _ _. by exists A, wif.
Qed.

(** X13: successive calls draw successive words.  After an [encrypt] of a
    non-empty plaintext, whether it returned or raised, the generator stands
    one word further, and the nonce of the next envelope is [str] of the 64
    low bits of that next word. *)
Theorem encrypt_twice_draws_twice m1 m2 w env2 :
  truthy m1 = true →
  let w1 := snd (encrypt m1 w) in
  fst (encrypt m2 w1) = Return (Some env2) →
  env2 !! "nonce"
    = Some (PStr (py_str_int (Z.land (rng_raw w (S (rng_pos w))) (Z.ones 64)))) ∧
  rng_pos (snd (encrypt m2 w1)) = S (S (rng_pos w)).
Proof.
  intros H1 w1 H2.
  destruct (encrypt_only_logs_after_draw m1 w H1) as (evs & Hw1 & _).
  fold w1 in Hw1.
  destruct (encrypt m2 w1) as [r2 w2] eqn:Henc. cbn in H2. subst r2.
  apply encrypt_success_inv in Henc
    as (A & B & wif & sk & pk & enc & _ & _ & _ & _ & _ & _ & _ & _ & -> & ->).
  rewrite Hw1. by split.
Qed.

(** X14: an exception of [PrivateKey], [PublicKey] or [encode_memo] leaves
    [encrypt] unchanged, and nothing is called after it.  [PrivateKey] is
    called before [self.to_account] is read: on a Memo without [to_account],
    a WIF that [PrivateKey] rejects gives the exception of [PrivateKey]. *)
Theorem encrypt_beembase_failure memo w A wif e :
  truthy memo = true →
  from_account (self w) = Some A →
  wallet_query w (PStr (memo_key A)) = Return wif →
  truthy wif = true →
  let nonce := PStr (py_str_int (draw64 w)) in
  let pfx := prefix (steem (self w)) in
  let ask := EvLookup (PStr (memo_key A)) in
  (PrivateKey wif = Raise e →
     encrypt memo w = (Raise e, log (drawn w) [ask; EvPrivateKey wif])) ∧
  (∀ sk B, PrivateKey wif = Return sk → to_account (self w) = Some B →
     PublicKey (PStr (memo_key B)) pfx = Raise e →
     encrypt memo w
       = (Raise e, log (drawn w) [ask; EvPrivateKey wif;
                                  EvPublicKey (PStr (memo_key B)) pfx])) ∧
  (∀ sk B pk, PrivateKey wif = Return sk → to_account (self w) = Some B →
     PublicKey (PStr (memo_key B)) pfx = Return pk →
     encode_memo sk pk nonce memo = Raise e →
     encrypt memo w
       = (Raise e, log (drawn w) [ask; EvPrivateKey wif;
                                  EvPublicKey (PStr (memo_key B)) pfx;
                                  EvEncode sk pk nonce memo])).
Proof.
  intros Hmemo HA Hw Hwif nonce pfx ask. subst nonce pfx ask.
  rewrite (encrypt_run w memo Hmemo). cbv zeta. rewrite HA, Hw, Hwif.
  split_and!.
  - by intros ->.
  - intros sk B -> -> Hpk. by rewrite Hpk.
  - intros sk B pk -> -> Hpk He. by rewrite Hpk, He.
Qed.

(** A case of [encrypt] that ends otherwise than in [MissingKeyError],
    the wallet having returned a truthy value or raised. *)
Ltac not_missing :=
  split; [split|];
    [ intros [? ?]; by simplify_eq
    | intros (? & ? & ?); simplify_eq; congruence
    | intros ? ?; by simplify_eq ].

(** X15: when [encrypt] raises [MissingKeyError].  On a Memo with
    [from_account], the wallet, [beembase] raising no [MissingKeyError] of
    their own, [encrypt] of a non-empty plaintext raises [MissingKeyError]
    if and only if the wallet returned a falsy value for the sender's memo
    key; the message then names the account.  A miss the wallet signals by
    an exception is therefore never reported as [MissingKeyError]. *)
Theorem encrypt_MissingKeyError_iff_falsy memo w A :
  truthy memo = true →
  from_account (self w) = Some A →
  wallet_never_raises_MissingKeyError (wallet (steem (self w))) →
  beembase_never_raises_MissingKeyError →
  encode_never_raises_MissingKeyError →
  ((∃ msg, fst (encrypt memo w) = Raise (MissingKeyError msg)) ↔
   (∃ wif, wallet_query w (PStr (memo_key A)) = Return wif ∧ truthy wif = false)) ∧
  (∀ msg, fst (encrypt memo w) = Raise (MissingKeyError msg) →
     msg = memo_key_missing (name A)).
Proof.
  intros Hmemo HA Hwallet (Hsk & Hpk & _) Henc.
  rewrite (encrypt_run w memo Hmemo). cbv zeta. rewrite HA.
  unfold wallet_query.
  destruct (getPrivateKeyForPublicKey _ _) as [wif|e] eqn:Hw; cbn [fst];
    [|apply Hwallet in Hw; not_missing].
  destruct (truthy wif) eqn:Hwif; cbn [fst].
  2:{ split; [split; [by exists wif|by eexists]|by intros msg [= <-]]. }
  destruct (PrivateKey wif) as [sk|e] eqn:H1; cbn [fst];
    [|apply Hsk in H1; not_missing].
  destruct (to_account (self w)) as [B|]; cbn [fst]; [|not_missing].
  destruct (PublicKey _ _) as [pk|e] eqn:H2; cbn [fst];
    [|apply Hpk in H2; not_missing].
  destruct (encode_memo _ _ _ _) as [enc|e] eqn:H3; cbn [fst];
    [|apply Henc in H3]; not_missing.
Qed.

(** ** [__init__], and [encrypt] on the object it builds *)

(** X1: when [__init__] raises, given a Steem instance.  With
    [steem_instance] given, [self.steem] is that instance and
    [shared_steem_instance()] is not called; the two accounts are built on
    it, [to_account] first.  [__init__] then raises exactly when the
    construction of the account of a truthy argument raises; the exception
    for [to_account] goes first, and that for [from_account] shows only if
    [to_account] was left out or built.  When it returns, [self.steem] is
    the instance given. *)
Theorem Memo_init_raises from_arg to_arg s :
  (∀ e, Memo_init from_arg to_arg (Some s) = Raise e ↔
     (truthy to_arg = true ∧ Account_new to_arg s = Raise e) ∨
     ((truthy to_arg = false ∨ ∃ B, Account_new to_arg s = Return B) ∧
      truthy from_arg = true ∧ Account_new from_arg s = Raise e)) ∧
  (∀ m, Memo_init from_arg to_arg (Some s) = Return m → steem m = s).
Proof.
  unfold Memo_init, mbind, Result_bind.
  change (default shared_steem_instance (Some s)) with s. cbv zeta. split.
  - intros e.
    destruct (truthy to_arg), (truthy from_arg);
      repeat match goal with
        | |- context [Account_new ?a ?s] => destruct (Account_new a s) eqn:?
        end;
      (split;
        [ intros ?; simplify_eq; eauto 10
        | intros [[? ?]|[[?|[? ?]] [? ?]]]; by simplify_eq ]).
  - intros m.
    destruct (truthy to_arg), (truthy from_arg);
      repeat match goal with
        | |- context [Account_new ?a ?s] => destruct (Account_new a s) eqn:?
        end;
      intros ?; simplify_eq; reflexivity.
Qed.

(** X2: from the constructor to the envelope.  If [encrypt] returns an
    envelope on the object [__init__] built, both arguments were truthy,
    from holds the memo key of the account built for [from_account] and to
    that of the account built for [to_account], both on the Steem instance
    given (else the shared one), and the one key asked of that instance's
    wallet is the sender's. *)
Theorem init_then_encrypt_keys from_arg to_arg st m w memo env w' :
  Memo_init from_arg to_arg st = Return m →
  self w = m →
  encrypt memo w = (Return (Some env), w') →
  let s := default shared_steem_instance st in
  ∃ A B,
    truthy from_arg = true ∧ truthy to_arg = true ∧
    Account_new from_arg s = Return A ∧
    Account_new to_arg s = Return B ∧
    env !! "from" = Some (PStr (memo_key A)) ∧
    env !! "to" = Some (PStr (memo_key B)) ∧
    steem (self w) = s ∧
    lookups (calls_since w w') = [PStr (memo_key A)].
Proof.
  intros Hinit Hself Henc s. subst s.
  apply Memo_init_attributes in Hinit as (Hsteem & Hfrom & Hto).
  apply encrypt_success_inv in Henc
    as (A & B & wif & sk & pk & enc & _ & HA & HB & _ & _ & _ & _ & _ & -> & ->).
  rewrite Hself in HA, HB. rewrite Hself, Hsteem. rewrite Hsteem in Hfrom, Hto.
  destruct (truthy from_arg); [|congruence].
  destruct (truthy to_arg); [|congruence].
  destruct Hfrom as (A' & HA' & HA''), Hto as (B' & HB' & HB'').
  assert (A' = A) as -> by congruence. assert (B' = B) as -> by congruence.
  exists A, B. split_and!; try done.
  by rewrite calls_since_drawn.
Qed.

End ResolverFacts.

(** ** [unlock_wallet] *)

Section UnlockFacts.
Context `{BB : Beembase} `{PY : PyRuntime} `{WL : WalletLib}.

(** X3: [unlock_wallet] touches the wallet of [self.steem] and nothing
    else: the accounts, the key prefix, the generator and the record of
    calls are as before.  When [unlock] raises, its exception leaves
    [unlock_wallet] and no object is returned.  When [unlock] returns, the
    result is the Memo object itself, now over the unlocked wallet: a
    [decrypt] chained on it behaves as [decrypt] does on any Memo object
    over that wallet and the same prefix. *)
Theorem unlock_wallet_returns_self args kwargs (arg : option Envelope) (w : World) :
  let out := unlock_wallet args kwargs w in
  let w' := snd out in
  let unlocked := Wallet_unlock args kwargs (wallet (steem (self w))) in
  self w' = with_wallet (self w) (snd unlocked) ∧
  from_account (self w') = from_account (self w) ∧
  to_account (self w') = to_account (self w) ∧
  prefix (steem (self w')) = prefix (steem (self w)) ∧
  rng_raw w' = rng_raw w ∧ rng_pos w' = rng_pos w ∧ trace w' = trace w ∧
  fst out = match fst unlocked with
            | Return _ => Return (self w')
            | Raise e => Raise e
            end ∧
  (∀ e, fst unlocked = Raise e →
     (unlock_wallet args kwargs ≫= λ _, decrypt arg) w = (Raise e, w')) ∧
  (∀ u w2, fst unlocked = Return u →
     steem (self w2)
       = {| wallet := snd unlocked; prefix := prefix (steem (self w)) |} →
     fst ((unlock_wallet args kwargs ≫= λ _, decrypt arg) w)
       = fst (decrypt arg w2) ∧
     calls_since w (snd ((unlock_wallet args kwargs ≫= λ _, decrypt arg) w))
       = calls_since w2 (snd (decrypt arg w2))).
Proof.
  intros out w' unlocked. subst out w' unlocked.
  unfold mbind, M_bind, bind, unlock_wallet.
  destruct (Wallet_unlock args kwargs (wallet (steem (self w)))) as [[u|e] wl].
  - split_and!; try done. intros _ w2 _ Hsteem. cbn [fst snd] in *.
    set (w' := {| self := with_wallet (self w) wl; rng_raw := rng_raw w;
                  rng_pos := rng_pos w; trace := trace w |}).
    assert (same_steem w' w2) as HR by (by unfold same_steem; rewrite Hsteem).
    destruct (decrypt_respects_same_steem arg w' w2 HR) as (evs & Hr & -> & ->).
    split; [done|]. rewrite calls_since_log.
    unfold calls_since, log; cbn. by rewrite drop_app_length.
  - split_and!; try done. by intros e' [= <-].
Qed.

End UnlockFacts.

(** * The scenario, run *)

#[local] Existing Instance Scenario.toy.
#[local] Existing Instance Scenario.python.
#[local] Existing Instance Scenario.chain.

(** The scenario's codec and wallets meet the assumptions made on the
    collaborators. *)
Lemma strip_prefix_app p s : Scenario.strip_prefix p (p +:+ s) = Some s.
Proof.
  induction p as [|a p IH]; simpl; [done|]. by rewrite Ascii.eqb_refl.
Qed.

Lemma toy_round_trip : codec_round_trip Scenario.pubkey_of.
Proof.
  intros sk_s sk_r nonce plain c. cbn [encode_memo decode_memo Scenario.toy].
  unfold Scenario.toy_encode, Scenario.toy_decode, Scenario.pubkey_of.
  destruct nonce as [|n], plain as [|m]; try discriminate.
  intros [= <-].
  assert (Scenario.header sk_r (5 * sk_s) n = Scenario.header sk_s (5 * sk_r) n)
    as -> by (unfold Scenario.header; do 2 f_equal; lia).
  by rewrite strip_prefix_app.
Qed.

Lemma parse_key_raises tag v e :
  Scenario.parse_key tag v = Raise e → is_MissingKeyError e = false.
Proof.
  unfold Scenario.parse_key. destruct v as [|s]; [by intros [= <-]|].
  destruct (Scenario.strip_prefix tag s) as [digits|]; [|by intros [= <-]].
  destruct (NilZero.uint_of_string digits); [done|by intros [= <-]].
Qed.

Lemma toy_never_raises_MissingKeyError : beembase_never_raises_MissingKeyError.
Proof.
  split_and!.
  - intros v e. apply parse_key_raises.
  - intros v pfx e. apply parse_key_raises.
  - intros sk pk n c e. cbn [decode_memo Scenario.toy]. unfold Scenario.toy_decode.
    destruct n as [|n], c as [|c]; try by intros [= <-].
    destruct (Scenario.strip_prefix _ c); [done|by intros [= <-]].
Qed.

Lemma wallet_of_never_raises_MissingKeyError keys :
  wallet_never_raises_MissingKeyError (Scenario.wallet_of keys).
Proof.
  intros k e. cbn. destruct k as [|s]; [by intros [= <-]|].
  destruct (keys !! s); [done|by intros [= <-]].
Qed.

Lemma wallet_of_returns_or_KeyNotFound keys k :
  lookup_returns_or_KeyNotFound (Scenario.wallet_of keys) k.
Proof.
  intros e. cbn. destruct k as [|s]; [by intros [= <-]|].
  destruct (keys !! s); [done|by intros [= <-]].
Qed.

(** Alice encrypts "foobar" for Bob: the envelope of the scenario. *)
Lemma encrypt_envelope_contents_witness :
  truthy (PStr "foobar") = true ∧
  encrypt (PStr "foobar") Scenario.sender_world
    = (Return (Some Scenario.foobar_envelope),
       snd (encrypt (PStr "foobar") Scenario.sender_world)) ∧
  ∃ env A B wif sk pk enc nonce,
    Some Scenario.foobar_envelope = Some env ∧
    from_account (self Scenario.sender_world) = Some A ∧
    to_account (self Scenario.sender_world) = Some B ∧
    nonce = PStr (py_str_int (draw64 Scenario.sender_world)) ∧
    wallet_query Scenario.sender_world (PStr (memo_key A)) = Return wif ∧
    PrivateKey wif = Return sk ∧
    PublicKey (PStr (memo_key B)) (prefix (steem (self Scenario.sender_world)))
      = Return pk ∧
    encode_memo sk pk nonce (PStr "foobar") = Return enc ∧
    dom env = ({[ "from"; "to"; "nonce"; "message" ]} : gset string) ∧
    env !! "from" = Some (PStr (memo_key A)) ∧
    env !! "to" = Some (PStr (memo_key B)) ∧
    env !! "nonce" = Some nonce ∧
    env !! "message" = Some enc ∧
    calls_since Scenario.sender_world
        (snd (encrypt (PStr "foobar") Scenario.sender_world))
      = [EvGetRandBits 64; EvLookup (PStr (memo_key A)); EvPrivateKey wif;
         EvPublicKey (PStr (memo_key B)) (prefix (steem (self Scenario.sender_world)));
         EvEncode sk pk nonce (PStr "foobar")].
Proof.
  split; [reflexivity|]. split; [vm_compute; reflexivity|].
  apply (encrypt_envelope_contents Scenario.sender_world (PStr "foobar")).
  - reflexivity.
  - vm_compute; reflexivity.
Defined.

(** The same call: the nonce is the word 17329630356955254641 of the
    generator. *)
Lemma encrypt_nonce_is_uint64_witness :
  truthy (PStr "foobar") = true ∧
  encrypt (PStr "foobar") Scenario.sender_world
    = (Return (Some Scenario.foobar_envelope),
       snd (encrypt (PStr "foobar") Scenario.sender_world)) ∧
  ∃ env n,
    Some Scenario.foobar_envelope = Some env ∧
    n = draw64 Scenario.sender_world ∧
    (0 ≤ n < 2 ^ 64)%Z ∧
    env !! "nonce" = Some (PStr (py_str_int n)) ∧
    NilZero.int_of_string (py_str_int n) = Some (Z.to_int n) ∧
    rng_pos (snd (encrypt (PStr "foobar") Scenario.sender_world))
      = S (rng_pos Scenario.sender_world) ∧
    filter (λ ev, is_rng_draw ev = true)
      (calls_since Scenario.sender_world
         (snd (encrypt (PStr "foobar") Scenario.sender_world)))
      = [EvGetRandBits 64].
Proof.
  split; [reflexivity|]. split; [vm_compute; reflexivity|].
  apply (encrypt_nonce_is_uint64 Scenario.sender_world (PStr "foobar")).
  - reflexivity.
  - vm_compute; reflexivity.
Defined.

(** C3: Alice's wallet lacks her memo key and says so by raising
    [KeyNotFound]; [encrypt] lets that exception through, it does not raise
    [MissingKeyError].  [decrypt], over a wallet that lacks both keys of the
    envelope, turns the same [KeyNotFound] into [MissingKeyError]. *)
Theorem encrypt_KeyNotFound_escapes :
  wallet_query Scenario.keyless_sender_world (PStr "STM55")
    = Raise (KeyNotFound "No private key for STM55 found") ∧
  encrypt (PStr "foobar") Scenario.keyless_sender_world
    = (Raise (KeyNotFound "No private key for STM55 found"),
       log (drawn Scenario.keyless_sender_world) [EvLookup (PStr "STM55")]) ∧
  is_MissingKeyError (KeyNotFound "No private key for STM55 found") = false ∧
  fst (decrypt (Some Scenario.foobar_envelope) (Scenario.reader_world ∅))
    = Raise (MissingKeyError
        "Non of the required memo keys are installed!Need any of ['STM115', 'STM55']").
Proof.
  split; [reflexivity|]. split; [|split; reflexivity].
  exact (encrypt_lookup_raises Scenario.keyless_sender_world (PStr "foobar")
           Scenario.alice _ eq_refl eq_refl eq_refl).
Qed.

(** [Memo("steemeu")] over Alice's wallet: the key is found, then
    [self.to_account] is missing. *)
Lemma init_then_encrypt_attribute_errors_witness :
  Memo_init (PStr "steemeu") PNone (Some (Scenario.steem_with (Scenario.wallet_of Scenario.alice_keys)))
    = Return (Scenario.memo_obj (Scenario.wallet_of Scenario.alice_keys) (Some Scenario.alice) None) ∧
  truthy (PStr "foobar") = true ∧
  fst (encrypt (PStr "foobar")
         (Scenario.world_of
            (Scenario.memo_obj (Scenario.wallet_of Scenario.alice_keys)
               (Some Scenario.alice) None)))
    = Raise (AttributeError "'Memo' object has no attribute 'to_account'").
Proof.
  split; [reflexivity|]. split; [reflexivity|].
  pose proof (init_then_encrypt_attribute_errors
                (PStr "steemeu") PNone
                (Some (Scenario.steem_with (Scenario.wallet_of Scenario.alice_keys)))
                _ (Scenario.world_of _) (PStr "foobar")
                eq_refl eq_refl eq_refl) as (_ & _ & _ & H).
  destruct (H eq_refl eq_refl) as (A & [= <-] & HA).
  destruct (HA (PStr "5J11") eq_refl) as [_ Hattr].
  exact (Hattr eq_refl 11%Z eq_refl).
Defined.

(** C10, as the specification words it, fails: Alice's Memo object is built without
    [to_account] over a wallet that lacks her key.  When the wallet answers
    the miss with [None], [encrypt] raises [MissingKeyError]; when it
    raises [KeyNotFound], so does [encrypt].  Neither is an
    [AttributeError]. *)
Lemma encrypt_without_to_account_counterexample :
  Memo_init (PStr "steemeu") PNone
      (Some (Scenario.steem_with (Scenario.storage_of Scenario.bob_keys)))
    = Return (Scenario.memo_obj (Scenario.storage_of Scenario.bob_keys)
                (Some Scenario.alice) None) ∧
  fst (encrypt (PStr "foobar")
         (Scenario.world_of
            (Scenario.memo_obj (Scenario.storage_of Scenario.bob_keys)
               (Some Scenario.alice) None)))
    = Raise (MissingKeyError "Memo key for steemeu missing!") ∧
  fst (encrypt (PStr "foobar")
         (Scenario.world_of
            (Scenario.memo_obj (Scenario.wallet_of Scenario.bob_keys)
               (Some Scenario.alice) None)))
    = Raise (KeyNotFound "No private key for STM55 found") ∧
  ¬ ∃ msg,
      fst (encrypt (PStr "foobar")
             (Scenario.world_of
                (Scenario.memo_obj (Scenario.storage_of Scenario.bob_keys)
                   (Some Scenario.alice) None)))
        = Raise (AttributeError msg).
Proof.
  split; [reflexivity|].
  split; [vm_compute; reflexivity|]. split; [vm_compute; reflexivity|].
  intros [msg H]. vm_compute in H. discriminate.
Qed.



(** The altered envelope read over a wallet with both keys: the decode
    fails for Bob's key, and Alice's key is never asked for. *)
Lemma decode_failure_propagates_witness :
  Scenario.tampered_envelope !! "to" = Some (PStr "STM115") ∧
  Scenario.tampered_envelope !! "from" = Some (PStr "STM55") ∧
  PrivateKey (PStr "5J23") = Return 23%Z ∧
  wallet_query (Scenario.reader_world Scenario.both_keys) (PStr "STM115")
    = Return (PStr "5J23") ∧
  PublicKey (PStr "STM55") "STM" = Return 55%Z ∧
  decode_memo 23%Z 55%Z (PStr "17329630356955254641")
      (PStr "1266:17329630356955254641:foobar")
    = Raise (IntegrityError "checksum verification failure") ∧
  decrypt (Some Scenario.tampered_envelope) (Scenario.reader_world Scenario.both_keys)
    = (Raise (IntegrityError "checksum verification failure"),
       log (Scenario.reader_world Scenario.both_keys)
         [EvLookup (PStr "STM115"); EvPrivateKey (PStr "5J23");
          EvPublicKey (PStr "STM55") "STM";
          EvDecode 23%Z 55%Z (PStr "17329630356955254641")
            (PStr "1266:17329630356955254641:foobar")]).
Proof.
  do 6 (split; [reflexivity|]).
  pose proof (decode_failure_propagates Scenario.tampered_envelope
                (Scenario.reader_world Scenario.both_keys)
                (PStr "STM115") (PStr "STM55") (PStr "5J23") 23%Z
                (IntegrityError "checksum verification failure")
                eq_refl eq_refl eq_refl) as [Hreceiver _].
  exact (Hreceiver 55%Z eq_refl eq_refl eq_refl).
Defined.

(** Envelopes lacking to, from and nonce. *)
Lemma decrypt_field_access_witness :
  Scenario.envelope_without_to ≠ ∅ ∧
  Scenario.envelope_without_from ≠ ∅ ∧
  Scenario.envelope_without_nonce ≠ ∅ ∧
  Scenario.envelope_without_to !! "to" = None ∧
  Scenario.envelope_without_from !! "from" = None ∧
  Scenario.envelope_without_nonce !! "nonce" = None ∧
  decrypt (Some Scenario.envelope_without_to) (Scenario.reader_world Scenario.both_keys)
    = (Raise (KeyError "to"), Scenario.reader_world Scenario.both_keys) ∧
  fst (decrypt (Some Scenario.envelope_without_from)
         (Scenario.reader_world Scenario.both_keys))
    = Raise (KeyError "from") ∧
  fst (decrypt (Some Scenario.envelope_without_from) (Scenario.reader_world ∅))
    = Raise (KeyError "from") ∧
  fst (decrypt (Some Scenario.envelope_without_nonce)
         (Scenario.reader_world Scenario.bob_keys))
    = decode_memo 23%Z 55%Z PNone (PStr "1265:17329630356955254641:foobar") ∧
  decrypt (Some Scenario.envelope_without_from) Scenario.locked_reader_world
    = (Raise (OtherError "WalletLocked" EmptyString),
       log Scenario.locked_reader_world [EvLookup (PStr "STM115")]) ∧
  decrypt (Some Scenario.envelope_without_nonce)
    (Scenario.reader_world Scenario.alice_keys)
    = (decode_memo 11%Z 115%Z PNone (PStr "1265:17329630356955254641:foobar"),
       log (Scenario.reader_world Scenario.alice_keys)
         [EvLookup (PStr "STM115"); EvLookup (PStr "STM55");
          EvPrivateKey (PStr "5J11"); EvPublicKey (PStr "STM115") "STM";
          EvDecode 11%Z 115%Z PNone (PStr "1265:17329630356955254641:foobar")]).
Proof.
  assert (Scenario.envelope_without_to ≠ ∅) as H1
    by exact (lookup_Some_nonempty Scenario.envelope_without_to "from"
                (PStr "STM55") eq_refl).
  assert (Scenario.envelope_without_from ≠ ∅) as H2
    by exact (lookup_Some_nonempty Scenario.envelope_without_from "to"
                (PStr "STM115") eq_refl).
  assert (Scenario.envelope_without_nonce ≠ ∅) as H3
    by exact (lookup_Some_nonempty Scenario.envelope_without_nonce "to"
                (PStr "STM115") eq_refl).
  do 3 (split; [assumption|]). do 3 (split; [reflexivity|]).
  split_and!.
  - exact (proj1 (decrypt_field_access _ (Scenario.reader_world Scenario.both_keys) H1)
             eq_refl).
  - destruct (decrypt_field_access _ (Scenario.reader_world Scenario.both_keys) H2)
      as (_ & Hfrom & _).
    apply (Hfrom (PStr "STM115") eq_refl eq_refl).
    apply wallet_of_returns_or_KeyNotFound.
  - destruct (decrypt_field_access _ (Scenario.reader_world ∅) H2) as (_ & Hfrom & _).
    apply (Hfrom (PStr "STM115") eq_refl eq_refl).
    apply wallet_of_returns_or_KeyNotFound.
  - destruct (decrypt_field_access _ (Scenario.reader_world Scenario.bob_keys) H3)
      as (_ & _ & _ & Hget & _).
    exact (proj1 (Hget (PStr "5J23") (PStr "STM55")
                    (log (Scenario.reader_world Scenario.bob_keys)
                       [EvLookup (PStr "STM115")])
                    23%Z 55%Z eq_refl eq_refl eq_refl)).
  - destruct (decrypt_field_access _ Scenario.locked_reader_world H2)
      as (_ & _ & Hother & _).
    exact (Hother (PStr "STM115") (OtherError "WalletLocked" EmptyString)
             eq_refl eq_refl eq_refl eq_refl).
  - destruct (decrypt_field_access _ (Scenario.reader_world Scenario.alice_keys) H3)
      as (_ & _ & _ & _ & Hroles).
    destruct (Hroles (PStr "STM115") (PStr "STM55") (PStr "5J11") 11%Z
                eq_refl eq_refl eq_refl) as [_ Hsender].
    exact (Hsender "No private key for STM115 found" 115%Z eq_refl eq_refl eq_refl).
Defined.

(** C9, as the specification words it, fails: the envelope without from
    is not empty and lacks a field, yet over a locked wallet [decrypt]
    raises the wallet's exception, not a [KeyError]: the query for
    [memo["to"]] comes before [memo["from"]] is read, and only a
    [KeyNotFound] from it is caught. *)
Lemma decrypt_locked_wallet_counterexample :
  Scenario.envelope_without_from ≠ ∅ ∧
  Scenario.envelope_without_from !! "to" = Some (PStr "STM115") ∧
  Scenario.envelope_without_from !! "from" = None ∧
  wallet_query Scenario.locked_reader_world (PStr "STM115")
    = Raise (OtherError "WalletLocked" EmptyString) ∧
  decrypt (Some Scenario.envelope_without_from) Scenario.locked_reader_world
    = (Raise (OtherError "WalletLocked" EmptyString),
       log Scenario.locked_reader_world [EvLookup (PStr "STM115")]) ∧
  ¬ ∃ k, fst (decrypt (Some Scenario.envelope_without_from)
                Scenario.locked_reader_world) = Raise (KeyError k).
Proof.
  split; [exact (lookup_Some_nonempty Scenario.envelope_without_from "to"
                   (PStr "STM115") eq_refl)|].
  do 3 (split; [reflexivity|]).
  assert (decrypt (Some Scenario.envelope_without_from) Scenario.locked_reader_world
          = (Raise (OtherError "WalletLocked" EmptyString),
             log Scenario.locked_reader_world [EvLookup (PStr "STM115")])) as H
    by (vm_compute; reflexivity).
  split; [exact H|]. rewrite H. intros [k Hk]. discriminate Hk.
Qed.

(** C8, as the specification words it, fails: Alice's [encrypt] of "foobar" does
    more to the world than record queries; its first call is the draw from
    the generator of [random], which moves from position 0 to position 1. *)
Lemma encrypt_draws_counterexample :
  head (calls_since Scenario.sender_world
          (snd (encrypt (PStr "foobar") Scenario.sender_world)))
    = Some (EvGetRandBits 64) ∧
  is_query (EvGetRandBits 64) = false ∧
  rng_pos Scenario.sender_world = 0%nat ∧
  rng_pos (snd (encrypt (PStr "foobar") Scenario.sender_world)) = 1%nat ∧
  ¬ ∃ evs,
      forallb is_query evs = true ∧
      snd (encrypt (PStr "foobar") Scenario.sender_world)
        = log Scenario.sender_world evs.
Proof.
  split_and!; try (vm_compute; reflexivity).
  intros (evs & _ & H). apply (f_equal rng_pos) in H. vm_compute in H.
  discriminate.
Qed.

(** "foobar" from Alice to Bob and back, read by Bob and read by Alice. *)
Lemma encrypt_decrypt_round_trip_witness :
  codec_round_trip Scenario.pubkey_of ∧
  key_pair Scenario.pubkey_of "STM" 11%Z "STM55" ∧
  key_pair Scenario.pubkey_of "STM" 23%Z "STM115" ∧
  holds_key (Scenario.wallet_of Scenario.alice_keys) "STM55" 11%Z ∧
  holds_key (Scenario.wallet_of Scenario.bob_keys) "STM115" 23%Z ∧
  encrypt (PStr "foobar") Scenario.sender_world
    = (Return (Some Scenario.foobar_envelope),
       snd (encrypt (PStr "foobar") Scenario.sender_world)) ∧
  fst (decrypt (Some Scenario.foobar_envelope) (Scenario.reader_world Scenario.bob_keys))
    = Return (PStr "foobar") ∧
  fst (decrypt (Some Scenario.foobar_envelope) (Scenario.reader_world Scenario.alice_keys))
    = Return (PStr "foobar").
Proof.
  assert (holds_key (Scenario.wallet_of Scenario.alice_keys) "STM55" 11%Z) as Halice
    by (exists (PStr "5J11"); split; reflexivity).
  assert (holds_key (Scenario.wallet_of Scenario.bob_keys) "STM115" 23%Z) as Hbob
    by (exists (PStr "5J23"); split; reflexivity).
  assert (encrypt (PStr "foobar") Scenario.sender_world
          = (Return (Some Scenario.foobar_envelope),
             snd (encrypt (PStr "foobar") Scenario.sender_world))) as Henc
    by (vm_compute; reflexivity).
  split; [exact toy_round_trip|]. do 2 (split; [reflexivity|]).
  do 3 (split; [assumption|]). split.
  - exact (encrypt_decrypt_round_trip Scenario.pubkey_of Scenario.sender_world
             (PStr "foobar") Scenario.foobar_envelope _
             (Scenario.reader_world Scenario.bob_keys)
             Scenario.alice Scenario.bob 11%Z 23%Z
             toy_round_trip eq_refl eq_refl eq_refl eq_refl Halice Henc eq_refl
             (or_introl Hbob)).
  - exact (encrypt_decrypt_round_trip Scenario.pubkey_of Scenario.sender_world
             (PStr "foobar") Scenario.foobar_envelope _
             (Scenario.reader_world Scenario.alice_keys)
             Scenario.alice Scenario.bob 11%Z 23%Z
             toy_round_trip eq_refl eq_refl eq_refl eq_refl Halice Henc eq_refl
             (or_intror (conj (ex_intro _ "No private key for STM115 found" eq_refl)
                           Halice))).
Defined.

(** C2: the round trip fails from the sender's role.  Alice's [encrypt] of
    "foobar" returns the envelope, both key pairs are valid and the codec
    round trips, and the wallet holds Alice's private key; it answers the
    query for Bob's key, which it lacks, with [None].  [decrypt] does not
    test that answer: it goes on in the receiver's role, hands [None] to
    [PrivateKey] and never asks for Alice's key, so "foobar" is not
    returned.  [encrypt] does test the answer of the same kind of wallet,
    and over a wallet that raises [KeyNotFound] for Bob's key the envelope
    is read with Alice's. *)
Theorem decrypt_sender_only_store_fails :
  let env := Scenario.foobar_envelope in
  let w := Scenario.storage_reader_world in
  let out := decrypt (Some env) w in
  let evs := calls_since w (snd out) in
  fst (encrypt (PStr "foobar") Scenario.sender_world) = Return (Some env) ∧
  codec_round_trip Scenario.pubkey_of ∧
  key_pair Scenario.pubkey_of "STM" 11%Z "STM55" ∧
  key_pair Scenario.pubkey_of "STM" 23%Z "STM115" ∧
  holds_key (wallet (steem (self w))) "STM55" 11%Z ∧
  wallet_query w (PStr "STM115") = Return PNone ∧
  truthy PNone = false ∧
  out = decode_with env PNone (PStr "STM55") (log w [EvLookup (PStr "STM115")]) ∧
  lookups evs = [PStr "STM115"] ∧
  evs !! 1%nat = Some (EvPrivateKey PNone) ∧
  fst out ≠ Return (PStr "foobar") ∧
  fst (encrypt (PStr "foobar") Scenario.storage_sender_world)
    = Raise (MissingKeyError "Memo key for steemeu missing!") ∧
  fst (decrypt (Some env) (Scenario.reader_world Scenario.alice_keys))
    = Return (PStr "foobar").
Proof.
  cbv zeta.
  assert (decrypt (Some Scenario.foobar_envelope) Scenario.storage_reader_world
          = decode_with Scenario.foobar_envelope PNone (PStr "STM55")
              (log Scenario.storage_reader_world [EvLookup (PStr "STM115")])) as H
    by exact (decrypt_receiver_role Scenario.foobar_envelope
                Scenario.storage_reader_world (PStr "STM115") (PStr "STM55") PNone
                eq_refl eq_refl eq_refl).
  split; [vm_compute; reflexivity|]. split; [exact toy_round_trip|].
  do 2 (split; [reflexivity|]).
  split; [exists (PStr "5J11"); split; reflexivity|].
  do 2 (split; [reflexivity|]). split; [exact H|].
  rewrite H. split; [vm_compute; reflexivity|]. split; [vm_compute; reflexivity|].
  split; [vm_compute; discriminate|].
  split; vm_compute; reflexivity.
Qed.

(** ** The further properties, run *)

Lemma parse_key_raises_FormatError tag v e :
  Scenario.parse_key tag v = Raise e → is_KeyNotFound e = false.
Proof.
  unfold Scenario.parse_key. destruct v as [|s]; [by intros [= <-]|].
  destruct (Scenario.strip_prefix tag s) as [digits|]; [|by intros [= <-]].
  destruct (NilZero.uint_of_string digits); [done|by intros [= <-]].
Qed.

Lemma toy_never_raises_KeyNotFound : beembase_never_raises_KeyNotFound.
Proof.
  split_and!.
  - intros v e. apply parse_key_raises_FormatError.
  - intros v pfx e. apply parse_key_raises_FormatError.
  - intros sk pk n c e. cbn [decode_memo Scenario.toy]. unfold Scenario.toy_decode.
    destruct n as [|n], c as [|c]; try by intros [= <-].
    destruct (Scenario.strip_prefix _ c); [done|by intros [= <-]].
Qed.

Lemma toy_encode_never_raises_MissingKeyError : encode_never_raises_MissingKeyError.
Proof.
  intros sk pk n c e. cbn [encode_memo Scenario.toy]. unfold Scenario.toy_encode.
  destruct n as [|n], c as [|c]; (done || by intros [= <-]).
Qed.

Lemma storage_of_never_raises_MissingKeyError keys :
  wallet_never_raises_MissingKeyError (Scenario.storage_of keys).
Proof. intros k e. cbn. by destruct k. Qed.

(** [Memo("steemeu", "nobody")] and [Memo("nobody", "wallet.xeroc")] on
    the Steem instance of Alice's wallet: the account that does not exist
    stops [__init__], as receiver and as sender; with both accounts known
    the object holds the instance given. *)
Lemma Memo_init_raises_witness :
  Memo_init (PStr "steemeu") (PStr "nobody")
      (Some (Scenario.steem_with (Scenario.wallet_of Scenario.alice_keys)))
    = Raise (OtherError "AccountDoesNotExistsException" EmptyString) ∧
  Memo_init (PStr "nobody") (PStr "wallet.xeroc")
      (Some (Scenario.steem_with (Scenario.wallet_of Scenario.alice_keys)))
    = Raise (OtherError "AccountDoesNotExistsException" EmptyString) ∧
  steem (self Scenario.sender_world)
    = Scenario.steem_with (Scenario.wallet_of Scenario.alice_keys).
Proof.
  split_and!.
  - apply (proj1 (Memo_init_raises (PStr "steemeu") (PStr "nobody")
                    (Scenario.steem_with (Scenario.wallet_of Scenario.alice_keys)))).
    left. split; reflexivity.
  - apply (proj1 (Memo_init_raises (PStr "nobody") (PStr "wallet.xeroc")
                    (Scenario.steem_with (Scenario.wallet_of Scenario.alice_keys)))).
    right. split; [right; exists Scenario.bob; reflexivity|]. split; reflexivity.
  - apply (proj2 (Memo_init_raises (PStr "steemeu") (PStr "wallet.xeroc")
                    (Scenario.steem_with (Scenario.wallet_of Scenario.alice_keys)))).
    reflexivity.
Defined.

(** [Memo("steemeu", "wallet.xeroc")] over Alice's wallet, then
    [encrypt("foobar")]. *)
Lemma init_then_encrypt_keys_witness :
  Memo_init (PStr "steemeu") (PStr "wallet.xeroc")
      (Some (Scenario.steem_with (Scenario.wallet_of Scenario.alice_keys)))
    = Return (self Scenario.sender_world) ∧
  encrypt (PStr "foobar") Scenario.sender_world
    = (Return (Some Scenario.foobar_envelope),
       snd (encrypt (PStr "foobar") Scenario.sender_world)) ∧
  ∃ A B,
    truthy (PStr "steemeu") = true ∧ truthy (PStr "wallet.xeroc") = true ∧
    Account_new (PStr "steemeu")
      (Scenario.steem_with (Scenario.wallet_of Scenario.alice_keys)) = Return A ∧
    Account_new (PStr "wallet.xeroc")
      (Scenario.steem_with (Scenario.wallet_of Scenario.alice_keys)) = Return B ∧
    Scenario.foobar_envelope !! "from" = Some (PStr (memo_key A)) ∧
    Scenario.foobar_envelope !! "to" = Some (PStr (memo_key B)) ∧
    steem (self Scenario.sender_world)
      = Scenario.steem_with (Scenario.wallet_of Scenario.alice_keys) ∧
    lookups (calls_since Scenario.sender_world
               (snd (encrypt (PStr "foobar") Scenario.sender_world)))
      = [PStr (memo_key A)].
Proof.
  assert (Memo_init (PStr "steemeu") (PStr "wallet.xeroc")
            (Some (Scenario.steem_with (Scenario.wallet_of Scenario.alice_keys)))
          = Return (self Scenario.sender_world)) as Hinit by reflexivity.
  assert (encrypt (PStr "foobar") Scenario.sender_world
          = (Return (Some Scenario.foobar_envelope),
             snd (encrypt (PStr "foobar") Scenario.sender_world))) as Henc
    by (vm_compute; reflexivity).
  split; [exact Hinit|]. split; [exact Henc|].
  exact (init_then_encrypt_keys (PStr "steemeu") (PStr "wallet.xeroc")
           (Some (Scenario.steem_with (Scenario.wallet_of Scenario.alice_keys)))
           (self Scenario.sender_world) Scenario.sender_world (PStr "foobar")
           Scenario.foobar_envelope _ Hinit eq_refl Henc).
Defined.

(** The envelope read by [Memo()] and by Alice-to-Bob's Memo object, both
    over Bob's wallet. *)
Lemma decrypt_reads_only_steem_witness :
  steem (self (Scenario.reader_world Scenario.bob_keys))
    = steem (self Scenario.keyless_sender_world) ∧
  fst (decrypt (Some Scenario.foobar_envelope) (Scenario.reader_world Scenario.bob_keys))
    = fst (decrypt (Some Scenario.foobar_envelope) Scenario.keyless_sender_world) ∧
  calls_since (Scenario.reader_world Scenario.bob_keys)
      (snd (decrypt (Some Scenario.foobar_envelope)
              (Scenario.reader_world Scenario.bob_keys)))
    = calls_since Scenario.keyless_sender_world
        (snd (decrypt (Some Scenario.foobar_envelope) Scenario.keyless_sender_world)).
Proof.
  split; [reflexivity|].
  exact (decrypt_reads_only_steem (Some Scenario.foobar_envelope)
           (Scenario.reader_world Scenario.bob_keys) Scenario.keyless_sender_world
           eq_refl).
Defined.

(** Alice's [encrypt] in a fresh world and in the world a [decrypt] has
    left: the record of calls differs, the object and the next word do not. *)
Lemma encrypt_reads_self_and_draw_witness :
  self Scenario.sender_world
    = self (snd (decrypt (Some Scenario.foobar_envelope) Scenario.sender_world)) ∧
  draw64 Scenario.sender_world
    = draw64 (snd (decrypt (Some Scenario.foobar_envelope) Scenario.sender_world)) ∧
  trace Scenario.sender_world
    ≠ trace (snd (decrypt (Some Scenario.foobar_envelope) Scenario.sender_world)) ∧
  fst (encrypt (PStr "foobar") Scenario.sender_world)
    = fst (encrypt (PStr "foobar")
             (snd (decrypt (Some Scenario.foobar_envelope) Scenario.sender_world))).
Proof.
  split; [reflexivity|]. split; [reflexivity|]. split; [by vm_compute|].
  exact (proj1 (encrypt_reads_self_and_draw (PStr "foobar") Scenario.sender_world
                  (snd (decrypt (Some Scenario.foobar_envelope) Scenario.sender_world))
                  eq_refl eq_refl)).
Defined.

(** Over an empty wallet both queries raise [KeyNotFound]; what leaves
    [decrypt] is not one. *)
Lemma decrypt_never_raises_wallet_KeyNotFound_witness :
  beembase_never_raises_KeyNotFound ∧
  wallet_query (Scenario.reader_world ∅) (PStr "STM115")
    = Raise (KeyNotFound "No private key for STM115 found") ∧
  fst (decrypt (Some Scenario.foobar_envelope) (Scenario.reader_world ∅))
    ≠ Raise (KeyNotFound "No private key for STM115 found").
Proof.
  split; [exact toy_never_raises_KeyNotFound|]. split; [reflexivity|].
  exact (decrypt_never_raises_wallet_KeyNotFound (Some Scenario.foobar_envelope)
           (Scenario.reader_world ∅) "No private key for STM115 found"
           toy_never_raises_KeyNotFound).
Defined.

(** The envelope read over a locked wallet. *)
Lemma decrypt_wallet_error_propagates_witness :
  Scenario.foobar_envelope !! "to" = Some (PStr "STM115") ∧
  is_KeyNotFound (OtherError "WalletLocked" EmptyString) = false ∧
  wallet_query Scenario.locked_reader_world (PStr "STM115")
    = Raise (OtherError "WalletLocked" EmptyString) ∧
  decrypt (Some Scenario.foobar_envelope) Scenario.locked_reader_world
    = (Raise (OtherError "WalletLocked" EmptyString),
       log Scenario.locked_reader_world [EvLookup (PStr "STM115")]).
Proof.
  do 3 (split; [reflexivity|]).
  exact (proj1 (decrypt_wallet_error_propagates Scenario.foobar_envelope
                  Scenario.locked_reader_world (PStr "STM115")
                  (OtherError "WalletLocked" EmptyString) eq_refl eq_refl)
           eq_refl).
Defined.

(** The envelope read over a wallet that holds Alice's key and answers
    the query for Bob's with [None]: Alice's key is never asked for. *)
Lemma decrypt_key_constructor_failure_witness :
  Scenario.foobar_envelope !! "to" = Some (PStr "STM115") ∧
  Scenario.foobar_envelope !! "from" = Some (PStr "STM55") ∧
  wallet_query Scenario.storage_reader_world (PStr "STM115") = Return PNone ∧
  wallet_query Scenario.storage_reader_world (PStr "STM55") = Return (PStr "5J11") ∧
  PrivateKey PNone = Raise (FormatError "key expected") ∧
  decrypt (Some Scenario.foobar_envelope) Scenario.storage_reader_world
    = (Raise (FormatError "key expected"),
       log Scenario.storage_reader_world
         [EvLookup (PStr "STM115"); EvPrivateKey PNone]).
Proof.
  do 5 (split; [reflexivity|]).
  exact (proj1 (decrypt_key_constructor_failure Scenario.foobar_envelope
                  Scenario.storage_reader_world (PStr "STM115") (PStr "STM55")
                  PNone (FormatError "key expected") eq_refl eq_refl)
           eq_refl eq_refl).
Defined.

(** The envelope with and without a fifth key. *)
Lemma decrypt_reads_four_keys_witness :
  Scenario.annotated_envelope ≠ ∅ ∧
  Scenario.foobar_envelope ≠ ∅ ∧
  Scenario.annotated_envelope ≠ Scenario.foobar_envelope ∧
  decrypt (Some Scenario.annotated_envelope) (Scenario.reader_world Scenario.bob_keys)
    = decrypt (Some Scenario.foobar_envelope) (Scenario.reader_world Scenario.bob_keys).
Proof.
  assert (Scenario.annotated_envelope ≠ ∅) as H1
    by exact (lookup_Some_nonempty Scenario.annotated_envelope "to"
                (PStr "STM115") eq_refl).
  assert (Scenario.foobar_envelope ≠ ∅) as H2
    by exact (lookup_Some_nonempty Scenario.foobar_envelope "to"
                (PStr "STM115") eq_refl).
  do 2 (split; [assumption|]). split.
  - intros H. apply (f_equal (λ m : Envelope, m !! "memo_type")) in H.
    vm_compute in H. discriminate.
  - exact (decrypt_reads_four_keys Scenario.annotated_envelope
             Scenario.foobar_envelope (Scenario.reader_world Scenario.bob_keys)
             H1 H2 eq_refl eq_refl eq_refl eq_refl).
Defined.

(** Alice encrypts twice. *)
Lemma encrypt_twice_draws_twice_witness :
  truthy (PStr "foobar") = true ∧
  fst (encrypt (PStr "foobar")
         (snd (encrypt (PStr "foobar") Scenario.sender_world)))
    = Return (Some Scenario.foobar_envelope) ∧
  Scenario.foobar_envelope !! "nonce"
    = Some (PStr (py_str_int
          (Z.land (rng_raw Scenario.sender_world (S (rng_pos Scenario.sender_world)))
             (Z.ones 64)))) ∧
  rng_pos (snd (encrypt (PStr "foobar")
                  (snd (encrypt (PStr "foobar") Scenario.sender_world))))
    = 2%nat.
Proof.
  assert (fst (encrypt (PStr "foobar")
                 (snd (encrypt (PStr "foobar") Scenario.sender_world)))
          = Return (Some Scenario.foobar_envelope)) as H
    by (vm_compute; reflexivity).
  split; [reflexivity|]. split; [exact H|].
  exact (encrypt_twice_draws_twice (PStr "foobar") (PStr "foobar")
           Scenario.sender_world Scenario.foobar_envelope eq_refl H).
Defined.

(** Alice's Memo object without receiver, her key garbled in the wallet:
    [PrivateKey] fails before [to_account] is missed. *)
Lemma encrypt_beembase_failure_witness :
  truthy (PStr "foobar") = true ∧
  from_account (self Scenario.garbled_sender_world) = Some Scenario.alice ∧
  to_account (self Scenario.garbled_sender_world) = None ∧
  wallet_query Scenario.garbled_sender_world (PStr "STM55") = Return (PStr "oops") ∧
  truthy (PStr "oops") = true ∧
  PrivateKey (PStr "oops") = Raise (FormatError "wrong prefix") ∧
  encrypt (PStr "foobar") Scenario.garbled_sender_world
    = (Raise (FormatError "wrong prefix"),
       log (drawn Scenario.garbled_sender_world)
         [EvLookup (PStr "STM55"); EvPrivateKey (PStr "oops")]).
Proof.
  do 6 (split; [reflexivity|]).
  exact (proj1 (encrypt_beembase_failure (PStr "foobar") Scenario.garbled_sender_world
                  Scenario.alice (PStr "oops") (FormatError "wrong prefix")
                  eq_refl eq_refl eq_refl eq_refl)
           eq_refl).
Defined.

(** Alice's wallet answers the miss with [None]: [MissingKeyError], with
    the account's name; over the wallet that raises [KeyNotFound], none. *)
Lemma encrypt_MissingKeyError_iff_falsy_witness :
  truthy (PStr "foobar") = true ∧
  from_account (self Scenario.storage_sender_world) = Some Scenario.alice ∧
  wallet_never_raises_MissingKeyError (Scenario.storage_of Scenario.bob_keys) ∧
  wallet_never_raises_MissingKeyError (Scenario.wallet_of Scenario.bob_keys) ∧
  beembase_never_raises_MissingKeyError ∧
  encode_never_raises_MissingKeyError ∧
  (∃ msg, fst (encrypt (PStr "foobar") Scenario.storage_sender_world)
            = Raise (MissingKeyError msg)) ∧
  ¬ (∃ msg, fst (encrypt (PStr "foobar") Scenario.keyless_sender_world)
              = Raise (MissingKeyError msg)).
Proof.
  do 2 (split; [reflexivity|]).
  split; [apply storage_of_never_raises_MissingKeyError|].
  split; [apply wallet_of_never_raises_MissingKeyError|].
  split; [exact toy_never_raises_MissingKeyError|].
  split; [exact toy_encode_never_raises_MissingKeyError|].
  split.
  - apply (proj1 (encrypt_MissingKeyError_iff_falsy (PStr "foobar")
                    Scenario.storage_sender_world Scenario.alice eq_refl eq_refl
                    (storage_of_never_raises_MissingKeyError _)
                    toy_never_raises_MissingKeyError
                    toy_encode_never_raises_MissingKeyError)).
    exists PNone. split; reflexivity.
  - intros Hmsg.
    apply (proj1 (encrypt_MissingKeyError_iff_falsy (PStr "foobar")
                    Scenario.keyless_sender_world Scenario.alice eq_refl eq_refl
                    (wallet_of_never_raises_MissingKeyError _)
                    toy_never_raises_MissingKeyError
                    toy_encode_never_raises_MissingKeyError)) in Hmsg.
    destruct Hmsg as (wif & Hw & _). vm_compute in Hw. discriminate.
Defined.

#[local] Existing Instance Scenario.keyring.

(** [Memo().unlock_wallet("secret").decrypt(memo)] over a locked wallet,
    and the same with a wrong password. *)
Lemma unlock_wallet_returns_self_witness :
  fst (decrypt (Some Scenario.foobar_envelope) Scenario.locked_reader_world)
    = Raise (OtherError "WalletLocked" EmptyString) ∧
  fst ((unlock_wallet [PStr "secret"] ∅ ≫= λ _, decrypt (Some Scenario.foobar_envelope))
         Scenario.locked_reader_world)
    = Return (PStr "foobar") ∧
  fst ((unlock_wallet [PStr "guess"] ∅ ≫= λ _, decrypt (Some Scenario.foobar_envelope))
         Scenario.locked_reader_world)
    = Raise (OtherError "WrongMasterPasswordException" EmptyString).
Proof.
  split; [reflexivity|]. split.
  - pose proof (unlock_wallet_returns_self [PStr "secret"] ∅
                  (Some Scenario.foobar_envelope) Scenario.locked_reader_world)
      as (_ & _ & _ & _ & _ & _ & _ & _ & _ & Hchain).
    rewrite (proj1 (Hchain tt (Scenario.reader_world Scenario.both_keys)
                      eq_refl eq_refl)).
    reflexivity.
  - pose proof (unlock_wallet_returns_self [PStr "guess"] ∅
                  (Some Scenario.foobar_envelope) Scenario.locked_reader_world)
      as (_ & _ & _ & _ & _ & _ & _ & _ & Hfail & _).
    by rewrite (Hfail (OtherError "WrongMasterPasswordException" EmptyString) eq_refl).
Defined.
